(** * Face redaction sample: the page pipeline of [src/index.js]

    The script wires a PDF viewer SDK to a face detector.  Its own logic is
    the annotation builder [createFaceRedactionAnnotation], the page function
    [detectAndRedactFacesFromPage] and the click handler
    [onRedactFacesButtonClick].  Everything the script calls but does not
    define (viewer, rasterizer, detector, annotation store, progress widget)
    is a field of the record [Services]; the calls the script makes to them
    are logged, in order, in the [trace] of the state. *)

From Stdlib Require Import List String ZArith QArith Qfield Bool Arith Lia.
From Stdlib Require Import Floats.PrimFloat Numbers.Cyclic.Int63.Uint63.
From Stdlib Require Import Sorted.
From Stdlib Require Import Floats.
Import ListNotations.
Open Scope nat_scope.

(** ** JavaScript numbers

    Coordinates, zoom factors and confidences are JS numbers.  The script
    only adds them; the detector library scales and compares them.  The
    development is generic in the arithmetic, with two instances: exact
    rationals, for the algebra, and IEEE binary64, which is what a JS engine
    computes. *)

Class JSNumber (num : Type) := {
  num_of_Z : Z -> num;
  num_add : num -> num -> num;
  num_mul : num -> num -> num;
  num_div : num -> num -> num;
  num_leb : num -> num -> bool
}.

#[export] Instance rational_number : JSNumber Q := {
  num_of_Z := inject_Z;
  num_add := Qplus;
  num_mul := Qmult;
  num_div := Qdiv;
  num_leb := Qle_bool
}.

Definition binary64_of_Z (z : Z) : float :=
  match z with
  | Z0 => PrimFloat.zero
  | Zpos _ => PrimFloat.of_uint63 (Uint63.of_Z z)
  | Zneg p => PrimFloat.opp (PrimFloat.of_uint63 (Uint63.of_Z (Zpos p)))
  end.

#[export] Instance binary64_number : JSNumber float := {
  num_of_Z := binary64_of_Z;
  num_add := PrimFloat.add;
  num_mul := PrimFloat.mul;
  num_div := PrimFloat.div;
  num_leb := PrimFloat.leb
}.

(** ** Failures and promises *)

(** The failures of the pipeline, named as the specification names them;
    [SdkFailure] stands for an exception of any other collaborator call. *)
Inductive Error : Type :=
| RenderFailure
| ModelNotReady
| DetectionFailure
| SdkFailure.

(** Result of a synchronous call. *)
Inductive outcome (A : Type) : Type :=
| Returns (a : A)
| Throws (e : Error).
Arguments Returns {A} a.
Arguments Throws {A} e.

(** State a promise is in once the event loop has nothing left to run for
    it: fulfilled with a value, rejected, or never settled. *)
Inductive Promise (A : Type) : Type :=
| Fulfilled (a : A)
| Rejected (e : Error)
| Pending.
Arguments Fulfilled {A} a.
Arguments Rejected {A} e.
Arguments Pending {A}.

(** State of the detector's network weights, a process-wide singleton. *)
Inductive ModelState : Type :=
| NotRequested
| Loading
| Loaded.

(** A value received where the script expects an array of detections. *)
Inductive JSArg (A : Type) : Type :=
| JSUndefined
| JSNull
| JSArray (items : list A).
Arguments JSUndefined {A}.
Arguments JSNull {A}.
Arguments JSArray {A} items.

(** ** Data model *)

Section DataModel.

Set Implicit Arguments.
Set Maximal Implicit Insertion.

Variable num : Type.

Record Box : Type := mkBox {
  x : num;
  y : num;
  width : num;
  height : num
}.

(** A detection of the detector library: the script reads [box] only. *)
Record FaceDetection : Type := mkFaceDetection {
  box : Box;
  confidence : num
}.

(** [Annotations.Quad(x1, y1, x2, y2, x3, y3, x4, y4)]. *)
Record Quad : Type := mkQuad {
  x1 : num; y1 : num;
  x2 : num; y2 : num;
  x3 : num; y3 : num;
  x4 : num; y4 : num
}.

(** [Annotations.Color(R, G, B, A)]. *)
Record Color : Type := mkColor {
  R : num; G : num; B : num; A : num
}.

(** [Annotations.RedactionAnnotation]: built from its quads, the other
    properties are assigned afterwards. *)
Record RedactionAnnotation : Type := mkRedactionAnnotation {
  Quads : list Quad;
  Author : option string;
  PageNumber : option nat;
  StrokeColor : option Color
}.

Record Dimensions : Type := mkDimensions {
  dim_width : num;
  dim_height : num
}.

(** [new faceapi.SsdMobilenetv1Options({minConfidence, maxResults})]. *)
Record SsdMobilenetv1Options : Type := mkOptions {
  minConfidence : num;
  maxResults : num
}.

(** What [doc.loadCanvas] does with the [drawComplete] callback it is
    given: call it with the canvas, throw before returning, or return and
    never call it. *)
Inductive RenderResult (C : Type) : Type :=
| DrawComplete (canvas : C)
| RenderThrows (e : Error)
| NoCallback.

(** Calls to collaborators, as they appear in the script. *)
Inductive Call : Type :=
| CallLoadFromUri (uri : string)
| CallWebViewer
| CallSetFitMode
| CallSetItems
| CallCreateProgress (numberOfPages : nat)
| CallShowProgress
| CallSendPageProcessing
| CallHideProgress
| CallLoadCanvas (pageNumber : nat) (zoom : num)
| CallToDataURL
| CallDetectAllFaces (options : SsdMobilenetv1Options)
| CallResizeResults (detections : list FaceDetection) (displaySize : Dimensions)
| CallNewRedactionAnnotation (quads : list Quad)
| CallAddAnnotation (annotation : RedactionAnnotation) (imported : bool)
| CallRedrawAnnotation (annotation : RedactionAnnotation).

(** The collaborators.  [getPageInfo] gives the page size in document
    units; [loadImage] is [None] when the image never fires [onload];
    [addAnnotation] tells whether the store accepts the marker.  The calls
    that have no failing answer here ([getDocument], [getPageInfo],
    [getPageCount], [getCurrentUser], the constructors, [redrawAnnotation]
    and the progress calls) are taken to return, and the detector to
    settle. *)
Record Services : Type := mkServices {
  Canvas : Type;
  Image : Type;
  getPageCount : nat;
  getPageInfo : nat -> Dimensions;
  loadCanvas : nat -> num -> RenderResult Canvas;
  toDataURL : Canvas -> outcome string;
  loadImage : string -> option Image;
  detectAllFaces : Image -> SsdMobilenetv1Options -> outcome (list FaceDetection);
  resizeResults : list FaceDetection -> Dimensions -> outcome (list FaceDetection);
  getCurrentUser : string;
  addAnnotation : RedactionAnnotation -> outcome unit
}.

(** Everything the script can change: the detector's model, the annotation
    store, the log of calls, and the rejections nobody handles. *)
Record State : Type := mkState {
  model : ModelState;
  annotations : list RedactionAnnotation;
  trace : list Call;
  unhandled : list Error
}.

(** *** Effects: state passing, with exceptions that keep the state *)

Definition Eff (T : Type) : Type := State -> State * outcome T.

Definition ret {T : Type} (v : T) : Eff T := fun st => (st, Returns v).

Definition bind {T U : Type} (c : Eff T) (k : T -> Eff U) : Eff U :=
  fun st =>
    match c st with
    | (st', Returns v) => k v st'
    | (st', Throws e) => (st', Throws e)
    end.

Definition call (c : Call) : Eff unit :=
  fun st =>
    (mkState (model st) (annotations st) (trace st ++ [c]) (unhandled st),
     Returns tt).

Definition lift {T : Type} (r : outcome T) : Eff T := fun st => (st, r).

Definition store (a : RedactionAnnotation) : Eff unit :=
  fun st =>
    (mkState (model st) (annotations st ++ [a]) (trace st) (unhandled st),
     Returns tt).

Definition report (e : Error) (st : State) : State :=
  mkState (model st) (annotations st) (trace st) (unhandled st ++ [e]).

End DataModel.

Unset Implicit Arguments.
Unset Maximal Implicit Insertion.

Arguments CallLoadFromUri {num} uri.
Arguments CallWebViewer {num}.
Arguments CallSetFitMode {num}.
Arguments CallSetItems {num}.
Arguments CallCreateProgress {num} numberOfPages.
Arguments CallShowProgress {num}.
Arguments CallSendPageProcessing {num}.
Arguments CallHideProgress {num}.
Arguments CallToDataURL {num}.
Arguments RenderThrows {C} e.
Arguments NoCallback {C}.
Arguments mkServices {num} Canvas Image getPageCount getPageInfo loadCanvas
  toDataURL loadImage detectAllFaces resizeResults getCurrentUser addAnnotation.
Arguments Eff num T : clear implicits.

Declare Scope eff_scope.
Delimit Scope eff_scope with eff.
Notation "v <- c ;; k" := (bind c (fun v => k))
  (at level 61, c at next level, right associativity) : eff_scope.
Notation "c ;;; k" := (bind c (fun _ => k))
  (at level 61, right associativity) : eff_scope.

(** ** The script *)

Section Script.

Context {num : Type} {NUM : JSNumber num}.
Variable W : Services num.

(** A decimal literal of the script, as the quotient it denotes. *)
Definition literal (n d : Z) : num := num_div (num_of_Z n) (num_of_Z d).

(** [zoom: 0.5] of the [loadCanvas] request. *)
Definition ZOOM : num := literal 1 2.

(** [{ minConfidence: 0.40, maxResults: 300 }]. *)
Definition detectionOptions : SsdMobilenetv1Options num :=
  mkOptions (literal 2 5) (num_of_Z 300).

(** [new Annotations.Color(255, 0, 0, 1)]. *)
Definition red : Color num :=
  mkColor (num_of_Z 255) (num_of_Z 0) (num_of_Z 0) (num_of_Z 1).

(** The callback of [faceDetections.map]: one quad per detection. *)
Definition quadOfDetection (detection : FaceDetection num) : Quad num :=
  let x := x (box detection) in
  let y := y (box detection) in
  let width := width (box detection) in
  let height := height (box detection) in
  let topLeft := (x, y) in
  let topRight := (num_add x width, y) in
  let bottomLeft := (x, num_add y height) in
  let bottomRight := (num_add x width, num_add y height) in
  mkQuad (fst bottomLeft) (snd bottomLeft)
         (fst bottomRight) (snd bottomRight)
         (fst topRight) (snd topRight)
         (fst topLeft) (snd topLeft).

Definition createFaceRedactionAnnotation (pageNumber : nat)
    (faceDetections : JSArg (FaceDetection num)) : Eff num unit :=
  match faceDetections with
  | JSArray detections =>
      if 0 <? List.length detections then
        (let quads := map quadOfDetection detections in
         call (CallNewRedactionAnnotation quads) ;;;
         let faceAnnotation := mkRedactionAnnotation quads None None None in
         let faceAnnotation :=
           mkRedactionAnnotation (Quads faceAnnotation)
             (Some (getCurrentUser W))
             (PageNumber faceAnnotation) (StrokeColor faceAnnotation) in
         let faceAnnotation :=
           mkRedactionAnnotation (Quads faceAnnotation)
             (Author faceAnnotation)
             (Some pageNumber) (StrokeColor faceAnnotation) in
         let faceAnnotation :=
           mkRedactionAnnotation (Quads faceAnnotation)
             (Author faceAnnotation)
             (PageNumber faceAnnotation) (Some red) in
         call (CallAddAnnotation faceAnnotation false) ;;;
         lift (addAnnotation W faceAnnotation) ;;;
         store faceAnnotation ;;;
         call (CallRedrawAnnotation faceAnnotation))%eff
      else ret tt
  | JSUndefined | JSNull => ret tt
  end.

(** [canvas.toDataURL] runs inside the promise's executor, so an exception
    rejects the promise; [resolve] is called from [image.onload] only. *)
Definition convertCanvasToImage (canvas : Canvas W) (st : State num)
    : State num * Promise (Image W) :=
  match (call CallToDataURL ;;; lift (toDataURL W canvas))%eff st with
  | (st1, Returns base64ImageDataURL) =>
      match loadImage W base64ImageDataURL with
      | Some image => (st1, Fulfilled image)
      | None => (st1, Pending)
      end
  | (st1, Throws e) => (st1, Rejected e)
  end.

(** Modelled from the spec: the detector fails with [ModelNotReady] when
    it is invoked before the model has finished loading; otherwise its
    answer is the collaborator's. *)
Definition detect (image : Image W) (options : SsdMobilenetv1Options num)
    : Eff num (list (FaceDetection num)) :=
  fun st =>
    match model st with
    | Loaded => (st, detectAllFaces W image options)
    | NotRequested | Loading => (st, Throws ModelNotReady)
    end.

(** The [async (image) => ...] callback, up to its call of [resolve]. *)
Definition onImage (displaySize : Dimensions num) (pageNumber : nat)
    (image : Image W) : Eff num unit :=
  (call (CallDetectAllFaces detectionOptions) ;;;
   detections <- detect image detectionOptions ;;
   call (CallResizeResults detections displaySize) ;;;
   resizedDetections <- lift (resizeResults W detections displaySize) ;;
   createFaceRedactionAnnotation pageNumber (JSArray resizedDetections))%eff.

(** The executor never calls [reject]: an exception of [loadCanvas] itself
    rejects the promise (the constructor catches it); a failure inside the
    [drawComplete] chain rejects a promise nobody holds, and the page's
    own promise is never settled. *)
Definition detectAndRedactFacesFromPage (pageNumber : nat) (st : State num)
    : State num * Promise unit :=
  let pageInfo := getPageInfo W pageNumber in
  let displaySize := mkDimensions (dim_width pageInfo) (dim_height pageInfo) in
  let st1 := fst (call (CallLoadCanvas pageNumber ZOOM) st) in
  match loadCanvas W pageNumber ZOOM with
  | RenderThrows e => (st1, Rejected e)
  | NoCallback => (st1, Pending)
  | DrawComplete canvas =>
      match convertCanvasToImage canvas st1 with
      | (st2, Fulfilled image) =>
          match onImage displaySize pageNumber image st2 with
          | (st3, Returns _) => (st3, Fulfilled tt)
          | (st3, Throws e) => (report e st3, Pending)
          end
      | (st2, Rejected e) => (report e st2, Pending)
      | (st2, Pending) => (st2, Pending)
      end
  end.

(** The [for] loop of the click handler over the pages still to do: the
    [await] resumes the loop when the page's promise is fulfilled, throws
    when it is rejected, and never resumes when it stays pending. *)
Fixpoint pageLoop (pages : list nat) (st : State num)
    : State num * Promise unit :=
  match pages with
  | [] => (st, Fulfilled tt)
  | pageNumber :: rest =>
      let st1 := fst (call CallSendPageProcessing st) in
      match detectAndRedactFacesFromPage pageNumber st1 with
      | (st2, Fulfilled _) => pageLoop rest st2
      | (st2, Rejected e) => (st2, Rejected e)
      | (st2, Pending) => (st2, Pending)
      end
  end.

Definition onRedactFacesButtonClick (st : State num)
    : State num * Promise unit :=
  let numberOfPages := getPageCount W in
  let st1 := fst (call (CallCreateProgress numberOfPages) st) in
  let st2 := fst (call CallShowProgress st1) in
  match pageLoop (seq 1 numberOfPages) st2 with
  | (st3, Fulfilled _) => (fst (call CallHideProgress st3), Fulfilled tt)
  | (st3, Rejected e) => (st3, Rejected e)
  | (st3, Pending) => (st3, Pending)
  end.

End Script.

(** ** The top level of the script and the events that follow it *)

Section Browser.

Context {num : Type} {NUM : JSNumber num}.
Variable W : Services num.

(** Modelled from the spec: [loadFromUri] starts loading the detector's
    model; the load completes later, as an event of its own. *)
Definition loadFromUri (uri : string) : Eff num unit :=
  fun st =>
    (mkState
       (match model st with NotRequested => Loading | m => m end)
       (annotations st) (trace st ++ [CallLoadFromUri uri]) (unhandled st),
     Returns tt).

(** The header gets one more item, whose [onClick] is the handler. *)
Definition addRedactFacesButtonToHeader : Eff num unit :=
  call CallSetItems.

(** A browser tab: the script's state, whether the button is in the
    header, and the promise of every click handled so far. *)
Record Browser : Type := mkBrowser {
  app : State num;
  buttonInstalled : bool;
  clicks : list (Promise unit)
}.

(** The tab once the script has been evaluated: the model load has been
    requested and its promise dropped, the viewer is being created. *)
Definition main : Browser :=
  let boot := mkState NotRequested [] [] [] in
  let st := fst ((loadFromUri "/models"%string ;;; call CallWebViewer)%eff boot) in
  mkBrowser st false [].

Inductive Event : Type :=
| ModelLoadCompletes
| WebViewerResolves
| RedactFacesClicked.

(** One turn of the event loop.  A click's sweep is followed until it has
    nothing left to run before the next event is looked at. *)
Definition react (b : Browser) (ev : Event) : Browser :=
  match ev with
  | ModelLoadCompletes =>
      let st := app b in
      mkBrowser
        (mkState (match model st with Loading => Loaded | m => m end)
           (annotations st) (trace st) (unhandled st))
        (buttonInstalled b) (clicks b)
  | WebViewerResolves =>
      if buttonInstalled b then b
      else
        let st :=
          fst ((call CallSetFitMode ;;; addRedactFacesButtonToHeader)%eff (app b)) in
        mkBrowser st true (clicks b)
  | RedactFacesClicked =>
      if buttonInstalled b then
        let (st, p) := onRedactFacesButtonClick W (app b) in
        mkBrowser st true (clicks b ++ [p])
      else b
  end.

Definition run (events : list Event) : Browser := fold_left react events main.

End Browser.

Arguments Browser num : clear implicits.

(** ** The detector library's rescaling, and the collaborators' contracts *)

Section Contracts.

Context {num : Type} {NUM : JSNumber num}.

(** Modelled from the spec: [faceapi.resizeResults] is not part of the
    script.  A resized detection is the detection with each of x, y, width
    and height divided by the zoom factor of the rasterization. *)
Definition rescaleBox (zoomFactor : num) (b : Box num) : Box num :=
  mkBox (num_div (x b) zoomFactor) (num_div (y b) zoomFactor)
        (num_div (width b) zoomFactor) (num_div (height b) zoomFactor).

Definition rescaleDetection (zoomFactor : num) (d : FaceDetection num)
    : FaceDetection num :=
  mkFaceDetection (rescaleBox zoomFactor (box d)) (confidence d).

(** Rescaling by a factor, as the round-trip law words it. *)
Definition scaleBox (factor : num) (b : Box num) : Box num :=
  mkBox (num_mul (x b) factor) (num_mul (y b) factor)
        (num_mul (width b) factor) (num_mul (height b) factor).

Variable W : Services num.

(** The marker the builder makes of a page's detections. *)
Definition markerOf (pageNumber : nat) (detections : list (FaceDetection num))
    : RedactionAnnotation num :=
  mkRedactionAnnotation (map quadOfDetection detections)
    (Some (getCurrentUser W)) (Some pageNumber) (Some red).

(** The detections found on the raster of a page, rendered at the script's
    zoom, are resized for that page's size to their boxes divided by the
    zoom. *)
Definition ResizeContract : Prop :=
  forall pageNumber canvas url image detections,
    loadCanvas W pageNumber ZOOM = DrawComplete canvas ->
    toDataURL W canvas = Returns url ->
    loadImage W url = Some image ->
    detectAllFaces W image detectionOptions = Returns detections ->
    resizeResults W detections
      (mkDimensions (dim_width (getPageInfo W pageNumber))
                    (dim_height (getPageInfo W pageNumber)))
    = Returns (map (rescaleDetection ZOOM) detections).

(** The detector returns no detection under the minimum confidence it is
    asked for. *)
Definition DetectorContract : Prop :=
  forall image options detections,
    detectAllFaces W image options = Returns detections ->
    Forall (fun d => num_leb (minConfidence options) (confidence d) = true)
           detections.

(** Resizing changes boxes only. *)
Definition ResizeKeepsConfidence : Prop :=
  forall detections displaySize resized,
    resizeResults W detections displaySize = Returns resized ->
    map confidence resized = map confidence detections.

End Contracts.

(** ** Sample collaborators *)

Section Samples.

Context {num : Type} {NUM : JSNumber num}.

Definition face (bx byy bw bh : Z) (percent : Z) : FaceDetection num :=
  mkFaceDetection
    (mkBox (num_of_Z bx) (num_of_Z byy) (num_of_Z bw) (num_of_Z bh))
    (literal percent 100).

(** Raster-space candidates of a three-page document, with their
    confidence in percent: one on page 1, three on page 2, none on
    page 3. *)
Definition sampleFaces (pageNumber : nat) : list (FaceDetection num) :=
  match pageNumber with
  | 1 => [face 10 20 30 40 90]
  | 2 => [face 5 5 20 20 75; face 200 8 16 16 30; face 100 50 24 32 41]
  | _ => []
  end.

(** Collaborators with a choice of rasterizer, detector and store; the
    canvas and the image of a page are its number. *)
Definition sampleServices
    (pageCount : nat)
    (render : nat -> RenderResult nat)
    (detector : nat -> outcome (list (FaceDetection num)))
    (accept : RedactionAnnotation num -> outcome unit)
    : Services num :=
  mkServices nat nat
    pageCount
    (fun _ => mkDimensions (num_of_Z 612) (num_of_Z 792))
    (fun pageNumber _ => render pageNumber)
    (fun canvas => Returns (String (Ascii.ascii_of_nat (48 + canvas)) EmptyString))
    (fun url =>
       match url with
       | String c EmptyString => Some (Ascii.nat_of_ascii c - 48)
       | _ => None
       end)
    (fun image options =>
       match detector image with
       | Returns found =>
           Returns (filter (fun d => num_leb (minConfidence options) (confidence d))
                           found)
       | Throws e => Throws e
       end)
    (fun detections _ => Returns (map (rescaleDetection ZOOM) detections))
    "guest"%string
    accept.

(** Every stage works. *)
Definition healthy : Services num :=
  sampleServices 3 (fun p => DrawComplete p)
    (fun p => Returns (sampleFaces p)) (fun _ => Returns tt).

(** The rasterizer throws on page 2. *)
Definition brokenPage2 : Services num :=
  sampleServices 3
    (fun p => if p =? 2 then RenderThrows RenderFailure else DrawComplete p)
    (fun p => Returns (sampleFaces p)) (fun _ => Returns tt).

(** The detector fails on page 2. *)
Definition brokenDetector : Services num :=
  sampleServices 3 (fun p => DrawComplete p)
    (fun p => if p =? 2 then Throws DetectionFailure else Returns (sampleFaces p))
    (fun _ => Returns tt).

(** The store refuses every marker. *)
Definition brokenStore : Services num :=
  sampleServices 3 (fun p => DrawComplete p)
    (fun p => Returns (sampleFaces p)) (fun _ => Throws SdkFailure).

Definition ready : State num := mkState Loaded [] [] [].

End Samples.

(** The samples in exact arithmetic. *)
Definition healthyQ : Services Q := healthy.
Definition brokenPage2Q : Services Q := brokenPage2.
Definition brokenDetectorQ : Services Q := brokenDetector.
Definition brokenStoreQ : Services Q := brokenStore.
Definition readyQ : State Q := ready.

(** ** Vocabulary of the statements *)

Section Vocabulary.

Context {num : Type} {NUM : JSNumber num}.
Variable W : Services num.

(** What a computation leaves behind: markers, calls and unhandled
    rejections, each appended to what was there. *)
Record Delta : Type := mkDelta {
  newAnnotations : list (RedactionAnnotation num);
  newCalls : list (Call num);
  newUnhandled : list Error
}.

Definition after (st : State num) (d : Delta) : State num :=
  mkState (model st)
    (annotations st ++ newAnnotations d)
    (trace st ++ newCalls d)
    (unhandled st ++ newUnhandled d).

Definition plus (d d' : Delta) : Delta :=
  mkDelta (newAnnotations d ++ newAnnotations d')
          (newCalls d ++ newCalls d')
          (newUnhandled d ++ newUnhandled d').

(** What the builder appends for an array of detections, and its answer. *)
Definition builderEffect (pageNumber : nat)
    (detections : list (FaceDetection num)) : Delta * outcome unit :=
  match detections with
  | [] => (mkDelta [] [] [], Returns tt)
  | _ :: _ =>
      let marker := markerOf W pageNumber detections in
      match addAnnotation W marker with
      | Returns _ =>
          (mkDelta [marker]
             [CallNewRedactionAnnotation (Quads marker);
              CallAddAnnotation marker false;
              CallRedrawAnnotation marker] [],
           Returns tt)
      | Throws e =>
          (mkDelta []
             [CallNewRedactionAnnotation (Quads marker);
              CallAddAnnotation marker false] [],
           Throws e)
      end
  end.

(** What the [async (image) => ...] callback appends when the model is in
    state [m], and its answer. *)
Definition imageEffect (m : ModelState) (displaySize : Dimensions num)
    (pageNumber : nat) (image : Image W) : Delta * outcome unit :=
  let asked := CallDetectAllFaces detectionOptions in
  match m with
  | Loaded =>
      match detectAllFaces W image detectionOptions with
      | Throws e => (mkDelta [] [asked] [], Throws e)
      | Returns detections =>
          let resize := CallResizeResults detections displaySize in
          match resizeResults W detections displaySize with
          | Throws e => (mkDelta [] [asked; resize] [], Throws e)
          | Returns resized =>
              (plus (mkDelta [] [asked; resize] [])
                    (fst (builderEffect pageNumber resized)),
               snd (builderEffect pageNumber resized))
          end
      end
  | NotRequested | Loading => (mkDelta [] [asked] [], Throws ModelNotReady)
  end.

(** What a page appends when the model is in state [m], and the state its
    promise ends in. *)
Definition pageEffect (m : ModelState) (pageNumber : nat)
    : Delta * Promise unit :=
  let pageInfo := getPageInfo W pageNumber in
  let displaySize := mkDimensions (dim_width pageInfo) (dim_height pageInfo) in
  let request := mkDelta [] [CallLoadCanvas pageNumber ZOOM] [] in
  match loadCanvas W pageNumber ZOOM with
  | RenderThrows e => (request, Rejected e)
  | NoCallback => (request, Pending)
  | DrawComplete canvas =>
      let encoded := plus request (mkDelta [] [CallToDataURL] []) in
      match toDataURL W canvas with
      | Throws e => (plus encoded (mkDelta [] [] [e]), Pending)
      | Returns url =>
          match loadImage W url with
          | None => (encoded, Pending)
          | Some image =>
              match imageEffect m displaySize pageNumber image with
              | (d, Returns _) => (plus encoded d, Fulfilled tt)
              | (d, Throws e) =>
                  (plus (plus encoded d) (mkDelta [] [] [e]), Pending)
              end
          end
      end
  end.

(** The calls a page makes, and the promise it ends with, when the model
    is in state [m]. *)
Definition pageCalls (m : ModelState) (pageNumber : nat) : list (Call num) :=
  newCalls (fst (pageEffect m pageNumber)).

Definition pagePromise (m : ModelState) (pageNumber : nat) : Promise unit :=
  snd (pageEffect m pageNumber).

(** The state in which a page starts: the progress call has been made. *)
Definition notified (st : State num) : State num :=
  fst (call CallSendPageProcessing st).

(** The calls of a sweep: never a model load or a viewer set-up, the
    rasterizer always at [ZOOM], the detector always with
    [detectionOptions]. *)
Definition sweepCall (c : Call num) : Prop :=
  match c with
  | CallLoadFromUri _ | CallWebViewer | CallSetFitMode | CallSetItems => False
  | CallLoadCanvas _ zoom => zoom = ZOOM
  | CallDetectAllFaces options => options = detectionOptions
  | _ => True
  end.

(** Calls that belong to the inside of a page: neither a progress call nor
    the request of a canvas. *)
Definition insidePage (c : Call num) : Prop :=
  match c with
  | CallCreateProgress _ | CallShowProgress | CallSendPageProcessing
  | CallHideProgress | CallLoadCanvas _ _ => False
  | _ => True
  end.

Definition isLoadFromUri (c : Call num) : bool :=
  match c with CallLoadFromUri _ => true | _ => false end.


Definition isClick (ev : Event) : bool :=
  match ev with RedactFacesClicked => true | _ => false end.

(** Some collaborator answers with the error [e] of its own. *)
Definition raises (e : Error) : Prop :=
  (exists pageNumber zoom, loadCanvas W pageNumber zoom = RenderThrows e)
  \/ (exists canvas, toDataURL W canvas = Throws e)
  \/ (exists image options, detectAllFaces W image options = Throws e)
  \/ (exists detections displaySize,
        resizeResults W detections displaySize = Throws e)
  \/ (exists annotation, addAnnotation W annotation = Throws e).

(** The calls of a sweep over [pages] that completes: for each page in
    turn, the progress call and then the page's own calls. *)
Definition loopCalls (m : ModelState) (pages : list nat) : list (Call num) :=
  flat_map (fun p => CallSendPageProcessing :: pageCalls m p) pages.

(** The state in which the loop of the click handler starts. *)
Definition started (st : State num) : State num :=
  fst (call CallShowProgress
         (fst (call (CallCreateProgress (getPageCount W)) st))).

Definition requestsPage (pageNumber : nat) (c : Call num) : bool :=
  match c with
  | CallLoadCanvas p _ => p =? pageNumber
  | _ => false
  end.

End Vocabulary.

Arguments Delta num : clear implicits.

(** Equality of boxes of rationals, up to the value of each field. *)
Definition box_eq (a b : Box Q) : Prop :=
  (x a == x b)%Q /\ (y a == y b)%Q
  /\ (width a == width b)%Q /\ (height a == height b)%Q.

(** ** Summaries of the loop and of the handler *)

Section Summaries.

Context {num : Type} {NUM : JSNumber num}.
Variable W : Services num.

(** [onRedactFacesButtonClickFactory] closes the handler over the viewer
    instance it is given. *)
Definition onRedactFacesButtonClickFactory : State num -> State num * Promise unit :=
  onRedactFacesButtonClick W.

(** What the loop over [pages] appends when the model is in state [m], and
    the state its promise ends in. *)
Fixpoint loopEffect (m : ModelState) (pages : list nat)
    : Delta num * Promise unit :=
  match pages with
  | [] => (mkDelta [] [] [], Fulfilled tt)
  | pageNumber :: rest =>
      let here :=
        plus (mkDelta [] [CallSendPageProcessing] [])
             (fst (pageEffect W m pageNumber)) in
      match snd (pageEffect W m pageNumber) with
      | Fulfilled _ =>
          (plus here (fst (loopEffect m rest)), snd (loopEffect m rest))
      | Rejected e => (here, Rejected e)
      | Pending => (here, Pending)
      end
  end.

(** What a click appends when the model is in state [m], and the state the
    handler's promise ends in. *)
Definition handlerEffect (m : ModelState) : Delta num * Promise unit :=
  let setup :=
    mkDelta [] [CallCreateProgress (getPageCount W); CallShowProgress] [] in
  let loop := loopEffect m (seq 1 (getPageCount W)) in
  match snd loop with
  | Fulfilled _ =>
      (plus setup (plus (fst loop) (mkDelta [] [CallHideProgress] [])),
       Fulfilled tt)
  | Rejected e => (plus setup (fst loop), Rejected e)
  | Pending => (plus setup (fst loop), Pending)
  end.

(** The markers handed to [redrawAnnotation], and the markers handed to
    [addAnnotation] with the flag they were given, in the order of the
    calls. *)
Fixpoint redrawn (calls : list (Call num)) : list (RedactionAnnotation num) :=
  match calls with
  | [] => []
  | CallRedrawAnnotation a :: rest => a :: redrawn rest
  | _ :: rest => redrawn rest
  end.

Fixpoint added (calls : list (Call num))
    : list (RedactionAnnotation num * bool) :=
  match calls with
  | [] => []
  | CallAddAnnotation a imported :: rest => (a, imported) :: added rest
  | _ :: rest => added rest
  end.

End Summaries.

(** The kind of a call, without its arguments. *)
Inductive CallKind : Type :=
| KLoadFromUri | KWebViewer | KSetFitMode | KSetItems
| KCreateProgress | KShowProgress | KSendPageProcessing | KHideProgress
| KLoadCanvas | KToDataURL | KDetectAllFaces | KResizeResults
| KNewRedactionAnnotation | KAddAnnotation | KRedrawAnnotation.

Definition kindOf {num : Type} (c : Call num) : CallKind :=
  match c with
  | CallLoadFromUri _ => KLoadFromUri
  | CallWebViewer => KWebViewer
  | CallSetFitMode => KSetFitMode
  | CallSetItems => KSetItems
  | CallCreateProgress _ => KCreateProgress
  | CallShowProgress => KShowProgress
  | CallSendPageProcessing => KSendPageProcessing
  | CallHideProgress => KHideProgress
  | CallLoadCanvas _ _ => KLoadCanvas
  | CallToDataURL => KToDataURL
  | CallDetectAllFaces _ => KDetectAllFaces
  | CallResizeResults _ _ => KResizeResults
  | CallNewRedactionAnnotation _ => KNewRedactionAnnotation
  | CallAddAnnotation _ _ => KAddAnnotation
  | CallRedrawAnnotation _ => KRedrawAnnotation
  end.

(** The calls of a page that commits a marker, in the order the script
    makes them. *)
Definition pageStages : list CallKind :=
  [KLoadCanvas; KToDataURL; KDetectAllFaces; KResizeResults;
   KNewRedactionAnnotation; KAddAnnotation; KRedrawAnnotation].

(** A document without pages, and one whose rasterizer never calls back on
    page 2. *)
Definition emptyDocumentQ : Services Q :=
  sampleServices 0 (fun p => DrawComplete p)
    (fun p => Returns (sampleFaces p)) (fun _ => Returns tt).

Definition stalledPage2Q : Services Q :=
  sampleServices 3 (fun p => if p =? 2 then NoCallback else DrawComplete p)
    (fun p => Returns (sampleFaces p)) (fun _ => Returns tt).

(** ** Binary64: doubling, as the IEEE specification computes it *)

Definition SFhalf : spec_float := S754_finite false 4503599627370496 (-53).

(** The double of the finite number of sign [s], mantissa [m] and exponent
    [e]: a subnormal mantissa is shifted, a normal one keeps its digits and
    the exponent grows, and past the largest exponent the result is an
    infinity. *)
Definition SFdouble (s : bool) (m : positive) (e : Z) : spec_float :=
  if (Zpos (digits2_pos m) <=? 52)%Z then S754_finite s (m~0)%positive e
  else if (e + 1 <=? 971)%Z then S754_finite s m (e + 1)%Z
       else S754_infinity s.

(** No field of the box is an infinity. *)
Definition finiteBox (b : Box float) : bool :=
  negb (is_infinity (x b)) && negb (is_infinity (y b))
  && negb (is_infinity (width b)) && negb (is_infinity (height b)).

(** * Properties *)

(** ** The annotation builder *)

Section Builder.

Context {num : Type} {NUM : JSNumber num}.
Variable W : Services num.

Lemma quadOfDetection_points (d : FaceDetection num) :
  quadOfDetection d =
  mkQuad (x (box d)) (num_add (y (box d)) (height (box d)))
         (num_add (x (box d)) (width (box d))) (num_add (y (box d)) (height (box d)))
         (num_add (x (box d)) (width (box d))) (y (box d))
         (x (box d)) (y (box d)).
Proof. reflexivity. Qed.

Lemma nonempty_length {T : Type} (l : list T) :
  l <> [] -> (0 <? List.length l) = true.
Proof.
  destruct l as [|a l]; [congruence|]. intros _. reflexivity.
Qed.

(** What the builder does with a non-empty array, whatever the store
    answers. *)
Lemma builder_nonempty (pageNumber : nat) (detections : list (FaceDetection num))
    (st : State num) :
  detections <> [] ->
  createFaceRedactionAnnotation W pageNumber (JSArray detections) st =
  let marker := markerOf W pageNumber detections in
  match addAnnotation W marker with
  | Returns _ =>
      (mkState (model st) (annotations st ++ [marker])
         (trace st ++ [CallNewRedactionAnnotation (Quads marker);
                       CallAddAnnotation marker false;
                       CallRedrawAnnotation marker])
         (unhandled st),
       Returns tt)
  | Throws e =>
      (mkState (model st) (annotations st)
         (trace st ++ [CallNewRedactionAnnotation (Quads marker);
                       CallAddAnnotation marker false])
         (unhandled st),
       Throws e)
  end.
Proof.
  intros Hne. unfold createFaceRedactionAnnotation.
  rewrite (nonempty_length detections Hne).
  unfold bind, call, lift, store, markerOf; cbn.
  destruct (addAnnotation W _) as [[]|e]; cbn;
    rewrite <- !app_assoc; reflexivity.
Qed.

(** C1: for a non-empty sequence of [k] detections on one page the builder
    commits exactly one marker: it makes one [addAnnotation] call, and when
    the store accepts the call the store holds exactly that one marker
    more.  The marker has exactly [k] quadrilaterals, one per detection in
    order, and the points of each are bottom-left (x, y+height),
    bottom-right (x+width, y+height), top-right (x+width, y), top-left
    (x, y). *)
Theorem C1_one_marker_with_k_quads (pageNumber : nat)
    (detections : list (FaceDetection num)) (st : State num) :
  detections <> [] ->
  exists marker : RedactionAnnotation num,
    List.length (Quads marker) = List.length detections
    /\ Quads marker =
       map (fun d =>
              let b := box d in
              mkQuad (x b) (num_add (y b) (height b))
                     (num_add (x b) (width b)) (num_add (y b) (height b))
                     (num_add (x b) (width b)) (y b)
                     (x b) (y b))
           detections
    /\ PageNumber marker = Some pageNumber
    /\ Author marker = Some (getCurrentUser W)
    /\ createFaceRedactionAnnotation W pageNumber (JSArray detections) st =
       match addAnnotation W marker with
       | Returns _ =>
           (mkState (model st) (annotations st ++ [marker])
              (trace st ++ [CallNewRedactionAnnotation (Quads marker);
                            CallAddAnnotation marker false;
                            CallRedrawAnnotation marker])
              (unhandled st),
            Returns tt)
       | Throws e =>
           (mkState (model st) (annotations st)
              (trace st ++ [CallNewRedactionAnnotation (Quads marker);
                            CallAddAnnotation marker false])
              (unhandled st),
            Throws e)
       end.
Proof.
  intros Hne. exists (markerOf W pageNumber detections).
  split; [apply length_map|].
  split; [cbn; apply map_ext; intros d; apply quadOfDetection_points|].
  split; [reflexivity|]. split; [reflexivity|].
  apply (builder_nonempty pageNumber detections st Hne).
Qed.

(** C2: for an empty detection sequence the builder does nothing: the
    state is returned as it was, so no marker object has been constructed
    (no call is logged) and the annotation store is unchanged.  A page
    whose detections are resized to the empty sequence therefore ends with
    the store it started with, and with no call after the resizing. *)
Theorem C2_empty_is_noop (pageNumber : nat) (st : State num) :
  createFaceRedactionAnnotation W pageNumber (JSArray []) st = (st, Returns tt)
  /\ (forall displaySize image detections,
        model st = Loaded ->
        detectAllFaces W image detectionOptions = Returns detections ->
        resizeResults W detections displaySize = Returns [] ->
        onImage W displaySize pageNumber image st
        = (mkState (model st) (annotations st)
             (trace st ++ [CallDetectAllFaces detectionOptions;
                           CallResizeResults detections displaySize])
             (unhandled st),
           Returns tt)).
Proof.
  split; [reflexivity|].
  intros displaySize image detections Hm Hfound Hres.
  unfold onImage, bind, detect, lift.
  destruct st as [m a t u]. cbn in Hm. subst m.
  cbn [call model fst snd]. rewrite Hfound. cbn [call model fst snd].
  rewrite Hres. cbn. rewrite <- app_assoc. reflexivity.
Qed.

(** C10: a null or undefined detections argument is guarded like the
    empty sequence: the builder returns normally, the state is returned as
    it was, and the result is the one of the empty sequence. *)
Theorem C10_null_is_noop (pageNumber : nat) (st : State num) :
  createFaceRedactionAnnotation W pageNumber JSNull st = (st, Returns tt)
  /\ createFaceRedactionAnnotation W pageNumber JSUndefined st = (st, Returns tt)
  /\ createFaceRedactionAnnotation W pageNumber JSNull st =
     createFaceRedactionAnnotation W pageNumber (JSArray []) st
  /\ createFaceRedactionAnnotation W pageNumber JSUndefined st =
     createFaceRedactionAnnotation W pageNumber (JSArray []) st.
Proof. repeat split. Qed.

End Builder.

(** ** The script against its effect summaries *)

Ltac state_eq :=
  unfold after, plus, report, notified, call; cbn;
  rewrite ?app_nil_r, <- ?app_assoc; cbn; reflexivity.

Section Effects.

Context {num : Type} {NUM : JSNumber num}.
Variable W : Services num.

Lemma after_plus (st : State num) (d d' : Delta num) :
  after (after st d) d' = after st (plus d d').
Proof. destruct st. state_eq. Qed.

Lemma after_model (st : State num) (d : Delta num) :
  model (after st d) = model st.
Proof. reflexivity. Qed.

Lemma builder_spec (pageNumber : nat) (detections : list (FaceDetection num))
    (st : State num) :
  createFaceRedactionAnnotation W pageNumber (JSArray detections) st =
  (after st (fst (builderEffect W pageNumber detections)),
   snd (builderEffect W pageNumber detections)).
Proof.
  destruct detections as [|d l].
  - destruct st. cbn. state_eq.
  - rewrite builder_nonempty by discriminate.
    unfold builderEffect. cbv zeta.
    destruct (addAnnotation W _) as [[]|e]; destruct st; state_eq.
Qed.

Lemma image_spec (displaySize : Dimensions num) (pageNumber : nat)
    (image : Image W) (st : State num) :
  onImage W displaySize pageNumber image st =
  (after st (fst (imageEffect W (model st) displaySize pageNumber image)),
   snd (imageEffect W (model st) displaySize pageNumber image)).
Proof.
  unfold onImage, imageEffect, bind, detect, lift.
  destruct st as [m a t u]. cbn [call model fst snd].
  destruct m; try state_eq.
  destruct (detectAllFaces W image detectionOptions) as [detections|e];
    [|state_eq].
  destruct (resizeResults W detections displaySize) as [resized|e];
    [|state_eq].
  rewrite builder_spec. cbn [fst snd].
  f_equal. state_eq.
Qed.

Lemma page_spec (pageNumber : nat) (st : State num) :
  detectAndRedactFacesFromPage W pageNumber st =
  (after st (fst (pageEffect W (model st) pageNumber)),
   snd (pageEffect W (model st) pageNumber)).
Proof.
  unfold detectAndRedactFacesFromPage, pageEffect, convertCanvasToImage,
    bind, lift.
  cbv zeta.
  destruct (loadCanvas W pageNumber ZOOM) as [canvas|e|];
    try (destruct st; state_eq).
  destruct st as [m a t u]. cbn [call fst snd].
  destruct (toDataURL W canvas) as [url|e]; [|state_eq].
  destruct (loadImage W url) as [image|]; [|state_eq].
  rewrite image_spec. cbn [model].
  destruct (imageEffect W m _ pageNumber image) as [d [[]|e]]; state_eq.
Qed.

End Effects.

(** ** What a page can and cannot do *)

Ltac page_cases W m pageNumber :=
  unfold pagePromise, pageCalls, pageEffect, imageEffect, builderEffect;
  cbv zeta;
  destruct (loadCanvas W pageNumber ZOOM) as [?canvas|?e|]; cbn;
  [ destruct (toDataURL W _) as [?url|?e]; cbn;
    [ destruct (loadImage W _) as [?image|]; cbn;
      [ destruct m; cbn;
        [ | | destruct (detectAllFaces W _ _) as [?detections|?e]; cbn;
              [ destruct (resizeResults W _ _) as [[|?d ?resized]|?e]; cbn;
                [ | destruct (addAnnotation W _) as [[]|?e]; cbn | ]
              | ] ]
      | ]
    | ]
  | | ].

Section Pages.

Context {num : Type} {NUM : JSNumber num}.
Variable W : Services num.

(** A page starts with its request of a canvas at [ZOOM]; the calls that
    follow belong to the inside of the page. *)
Lemma pageCalls_shape (m : ModelState) (pageNumber : nat) :
  exists inside,
    pageCalls W m pageNumber = CallLoadCanvas pageNumber ZOOM :: inside
    /\ Forall insidePage inside
    /\ Forall sweepCall inside.
Proof.
  page_cases W m pageNumber; eexists; (split; [reflexivity|]);
    split; repeat constructor.
Qed.

Lemma pageCalls_sweep (m : ModelState) (pageNumber : nat) :
  Forall sweepCall (pageCalls W m pageNumber).
Proof.
  destruct (pageCalls_shape m pageNumber) as (inside & -> & _ & H).
  constructor; [reflexivity|exact H].
Qed.

(** A page whose promise is not fulfilled has committed no marker. *)
Lemma unfinished_page_commits_nothing (m : ModelState) (pageNumber : nat) :
  pagePromise W m pageNumber <> Fulfilled tt ->
  newAnnotations (fst (pageEffect W m pageNumber)) = [].
Proof.
  page_cases W m pageNumber; intros H; try reflexivity;
    exfalso; apply H; reflexivity.
Qed.

(** The promise of a page is rejected exactly when the request of the
    canvas throws. *)
Lemma page_rejected_iff (m : ModelState) (pageNumber : nat) (e : Error) :
  pagePromise W m pageNumber = Rejected e <->
  loadCanvas W pageNumber ZOOM = RenderThrows e.
Proof.
  page_cases W m pageNumber; split; intros H; try discriminate;
    try (inversion H; reflexivity).
Qed.

(** Every failure of a page is a collaborator's, or is the detector's
    refusal to run without its model. *)
Lemma page_errors (m : ModelState) (pageNumber : nat) (e : Error) :
  In e (newUnhandled (fst (pageEffect W m pageNumber)))
  \/ pagePromise W m pageNumber = Rejected e ->
  raises W e \/ (e = ModelNotReady /\ m <> Loaded).
Proof.
  unfold raises.
  unfold pagePromise, pageCalls, pageEffect, imageEffect, builderEffect;
    cbv zeta.
  destruct (loadCanvas W pageNumber ZOOM) as [canvas|e0|] eqn:Hload; cbn.
  - destruct (toDataURL W canvas) as [url|e0] eqn:Hurl; cbn.
    + destruct (loadImage W url) as [image|]; cbn.
      * destruct m; cbn.
        -- intros [[<-|[]]|H]; [|discriminate].
           right. split; [reflexivity|discriminate].
        -- intros [[<-|[]]|H]; [|discriminate].
           right. split; [reflexivity|discriminate].
        -- destruct (detectAllFaces W image detectionOptions)
             as [detections|e0] eqn:Hdet; cbn.
           ++ destruct (resizeResults W detections _)
                as [[|d resized]|e0] eqn:Hres; cbn.
              ** intros [[]|H]; discriminate.
              ** destruct (addAnnotation W _) as [[]|e0] eqn:Hadd; cbn.
                 --- intros [[]|H]; discriminate.
                 --- intros [[<-|[]]|H]; [|discriminate].
                     left. do 4 right. eauto.
              ** intros [[<-|[]]|H]; [|discriminate].
                 left. do 3 right. left. eauto.
           ++ intros [[<-|[]]|H]; [|discriminate].
              left. do 2 right. left. eauto.
      * intros [[]|H]; discriminate.
    + intros [[<-|[]]|H]; [|discriminate].
      left. right. left. eauto.
  - intros [[]|H]. inversion H; subst. left. left. eauto.
  - intros [[]|H]; discriminate.
Qed.

(** A page commits at most one marker. *)
Lemma page_commits_at_most_one (m : ModelState) (pageNumber : nat) :
  List.length (newAnnotations (fst (pageEffect W m pageNumber))) <= 1.
Proof. page_cases W m pageNumber; lia. Qed.

End Pages.

(** ** The loop over the pages *)

Section Sweep.

Context {num : Type} {NUM : JSNumber num}.
Variable W : Services num.

Lemma pageLoop_step (pageNumber : nat) (rest : list nat) (st : State num) :
  pageLoop W (pageNumber :: rest) st =
  match pagePromise W (model st) pageNumber with
  | Fulfilled _ =>
      pageLoop W rest
        (after (notified st) (fst (pageEffect W (model st) pageNumber)))
  | Rejected e =>
      (after (notified st) (fst (pageEffect W (model st) pageNumber)),
       Rejected e)
  | Pending =>
      (after (notified st) (fst (pageEffect W (model st) pageNumber)),
       Pending)
  end.
Proof.
  cbn [pageLoop]. rewrite page_spec. reflexivity.
Qed.

Lemma pageLoop_app (pages1 pages2 : list nat) (st : State num) :
  pageLoop W (pages1 ++ pages2) st =
  match pageLoop W pages1 st with
  | (st1, Fulfilled _) => pageLoop W pages2 st1
  | (st1, Rejected e) => (st1, Rejected e)
  | (st1, Pending) => (st1, Pending)
  end.
Proof.
  revert st. induction pages1 as [|p pages1 IH]; intros st.
  - reflexivity.
  - rewrite <- app_comm_cons, !pageLoop_step.
    destruct (pagePromise W (model st) p); [apply IH| |]; reflexivity.
Qed.

(** The loop only appends; its calls are calls of a sweep, and its
    failures are the pages'. *)
Lemma pageLoop_effect (pages : list nat) (st : State num) :
  exists d,
    fst (pageLoop W pages st) = after st d
    /\ Forall sweepCall (newCalls d)
    /\ (forall e,
          In e (newUnhandled d) \/ snd (pageLoop W pages st) = Rejected e ->
          raises W e \/ (e = ModelNotReady /\ model st <> Loaded))
    /\ (forall q,
          existsb (requestsPage q) (newCalls d) = true -> In q pages).
Proof.
  revert st. induction pages as [|p pages IH]; intros st.
  - exists (mkDelta [] [] []). cbn.
    split; [destruct st; state_eq|].
    split; [constructor|].
    split; [intros e [[]|H]; discriminate|discriminate].
  - rewrite pageLoop_step.
    pose proof (pageCalls_sweep W (model st) p) as Hcalls.
    pose proof (page_errors W (model st) p) as Herr.
    destruct (pageCalls_shape W (model st) p) as (inside & Hshape & Hin & _).
    unfold pageCalls in Hcalls, Hshape.
    set (dp := fst (pageEffect W (model st) p)) in *.
    assert (Hreq : forall q,
               existsb (requestsPage q) (newCalls dp) = true -> q = p).
    { intros q. rewrite Hshape. cbn.
      destruct (Nat.eqb_spec p q) as [->|Hne]; [reflexivity|]. cbn.
      intros H. apply existsb_exists in H. destruct H as (c & Hc & Hq).
      rewrite Forall_forall in Hin. specialize (Hin c Hc).
      destruct c; cbn in Hq, Hin; try discriminate; contradiction. }
    destruct (pagePromise W (model st) p) as [[]|e0|] eqn:Hp.
    + destruct (IH (after (notified st) dp)) as (d & Hd & Hs & He & Hq).
      exists (plus (mkDelta [] [CallSendPageProcessing] []) (plus dp d)).
      split; [rewrite Hd; destruct st; state_eq|].
      split.
      { cbn. constructor; [exact I|]. apply Forall_app; split; assumption. }
      split.
      { intros e [H|H].
        - cbn in H. apply in_app_or in H. destruct H as [H|H].
          + apply Herr. left. exact H.
          + apply (He e). left. exact H.
        - apply (He e). right. exact H. }
      intros q. cbn. rewrite existsb_app, orb_true_iff.
      intros [H|H]; [left; symmetry; apply Hreq; exact H|right; apply Hq; exact H].
    + exists (plus (mkDelta [] [CallSendPageProcessing] []) dp).
      split; [destruct st; state_eq|].
      split; [cbn; constructor; [exact I|assumption]|].
      split.
      { intros e [H|H].
        - apply Herr. left. exact H.
        - cbn in H. inversion H; subst. apply Herr. right. reflexivity. }
      intros q. cbn. intros H. left. symmetry. apply Hreq. exact H.
    + exists (plus (mkDelta [] [CallSendPageProcessing] []) dp).
      split; [destruct st; state_eq|].
      split; [cbn; constructor; [exact I|assumption]|].
      split.
      { intros e [H|H]; [|discriminate].
        apply Herr. left. exact H. }
      intros q. cbn. intros H. left. symmetry. apply Hreq. exact H.
Qed.

(** A loop that completes has made, page after page, the progress call
    and the page's calls; every page's promise was fulfilled. *)
Lemma pageLoop_fulfilled (pages : list nat) (st st' : State num) :
  pageLoop W pages st = (st', Fulfilled tt) ->
  model st' = model st
  /\ trace st' = trace st ++ loopCalls W (model st) pages
  /\ Forall (fun p => pagePromise W (model st) p = Fulfilled tt) pages
  /\ exists markers, annotations st' = annotations st ++ markers.
Proof.
  revert st. induction pages as [|p pages IH]; intros st.
  - cbn. intros H. inversion H; subst.
    split; [reflexivity|]. split; [symmetry; apply app_nil_r|].
    split; [constructor|]. exists []. symmetry. apply app_nil_r.
  - rewrite pageLoop_step.
    destruct (pagePromise W (model st) p) as [[]|e0|] eqn:Hp;
      try discriminate.
    intros H. apply IH in H. cbn [model after notified call fst] in H.
    destruct H as (Hm & Ht & Hall & markers & Ha).
    split; [exact Hm|].
    split.
    { rewrite Ht. cbn. rewrite <- !app_assoc. reflexivity. }
    split; [constructor; assumption|].
    eexists. rewrite Ha. cbn. rewrite <- app_assoc. reflexivity.
Qed.


End Sweep.

(** ** The click handler *)

Section Handler.

Context {num : Type} {NUM : JSNumber num}.
Variable W : Services num.

Lemma handler_unfold (st : State num) :
  onRedactFacesButtonClick W st =
  match pageLoop W (seq 1 (getPageCount W)) (started W st) with
  | (st3, Fulfilled _) => (fst (call CallHideProgress st3), Fulfilled tt)
  | (st3, Rejected e) => (st3, Rejected e)
  | (st3, Pending) => (st3, Pending)
  end.
Proof. reflexivity. Qed.


Lemma requests_in_range (q k : nat) :
  List.length (filter (fun p => p =? q) (seq 1 k))
  = if (1 <=? q) && (q <=? k) then 1 else 0.
Proof.
  induction k as [|k IH]; [destruct q; reflexivity|].
  rewrite seq_S, filter_app, length_app, IH.
  change (1 + k) with (S k). cbn [filter].
  destruct (Nat.eqb_spec (S k) q), (Nat.leb_spec 1 q), (Nat.leb_spec q k),
    (Nat.leb_spec q (S k)); cbn; lia.
Qed.

Lemma loopCalls_requests (m : ModelState) (q : nat) (pages : list nat) :
  List.length (filter (requestsPage q) (loopCalls W m pages))
  = List.length (filter (fun p => p =? q) pages).
Proof.
  induction pages as [|p pages IH]; [reflexivity|].
  unfold loopCalls in *. cbn [flat_map]. cbn [app filter requestsPage].
  rewrite filter_app, length_app, IH.
  destruct (pageCalls_shape W m p) as (inside & -> & Hin & _).
  cbn [filter requestsPage].
  assert (Hnone : filter (requestsPage q) inside = []).
  { induction Hin as [|c l Hc _ IHl]; [reflexivity|].
    cbn. destruct c; cbn in Hc; try contradiction; exact IHl. }
  rewrite Hnone. destruct (p =? q); cbn; lia.
Qed.


Lemma seq_around (p n : nat) :
  1 <= p <= n ->
  seq 1 n = seq 1 (p - 1) ++ p :: seq (S p) (n - p).
Proof.
  intros Hp. replace n with ((p - 1) + S (n - p)) at 1 by lia.
  rewrite seq_app. cbn [seq]. replace (1 + (p - 1)) with p by lia.
  reflexivity.
Qed.

(** C4 (amended): when a stage fails on a page (its promise is not
    fulfilled) after the pages before it were completed, the click
    handler ends exactly where that page ends: no later page is begun, the
    page is not begun again, and [hideProgress] is not called.  The
    markers of the earlier pages are in the store as they were committed
    and the failed page has added none.  An exception of the rasterizer
    call reaches the caller of the handler as the rejection of its
    promise.  In the three-page document whose page 2 cannot be
    rasterized, the marker of page 1 is committed, page 3 is never
    requested, and the handler is rejected with [RenderFailure]. *)
Theorem C4_failure_stops_the_sweep (st st1 st2 : State num)
    (pageNumber : nat) (r : Promise unit) :
  1 <= pageNumber <= getPageCount W ->
  pageLoop W (seq 1 (pageNumber - 1)) (started W st) = (st1, Fulfilled tt) ->
  detectAndRedactFacesFromPage W pageNumber (notified st1) = (st2, r) ->
  r <> Fulfilled tt ->
  onRedactFacesButtonClick W st = (st2, r)
  /\ annotations st2 = annotations st1
  /\ (exists earlier, annotations st1 = annotations st ++ earlier)
  /\ (forall e, loadCanvas W pageNumber ZOOM = RenderThrows e -> r = Rejected e)
  /\ (exists calls,
        trace st2 = trace st ++ calls
        /\ forall q,
             List.length (filter (requestsPage q) calls)
             = if (1 <=? q) && (q <=? pageNumber) then 1 else 0)
  /\ (let final := onRedactFacesButtonClick brokenPage2Q readyQ in
      snd final = Rejected RenderFailure
      /\ map PageNumber (annotations (fst final)) = [Some 1]
      /\ existsb (requestsPage 3) (trace (fst final)) = false).
Proof.
  intros Hp Hdone Hpage Hr.
  destruct (pageLoop_fulfilled W _ _ _ Hdone) as (Hm & Ht & _ & earlier & Ha).
  change (model (started W st)) with (model st) in Hm, Ht.
  change (annotations (started W st)) with (annotations st) in Ha.
  assert (Hm1 : model (notified st1) = model st) by (cbn; exact Hm).
  rewrite page_spec, Hm1 in Hpage.
  injection Hpage as Hst2 Hprom.
  fold (pagePromise W (model st) pageNumber) in Hprom.
  split.
  { rewrite handler_unfold, (seq_around pageNumber _ Hp), pageLoop_app, Hdone.
    rewrite pageLoop_step, Hm, Hprom, Hst2.
    destruct r as [[]|e|]; [contradiction Hr| |]; reflexivity. }
  split.
  { rewrite <- Hst2. cbn [after annotations notified call fst].
    rewrite (unfinished_page_commits_nothing W);
      [apply app_nil_r|rewrite Hprom; exact Hr]. }
  split; [exists earlier; exact Ha|].
  split.
  { intros e He. rewrite <- Hprom.
    apply (proj2 (page_rejected_iff W (model st) pageNumber e)). exact He. }
  split.
  - exists ([CallCreateProgress (getPageCount W); CallShowProgress]
            ++ loopCalls W (model st) (seq 1 pageNumber)).
    split.
    + rewrite <- Hst2. cbn [after notified call fst trace]. rewrite Ht.
      replace (seq 1 pageNumber) with (seq 1 (pageNumber - 1) ++ [pageNumber]).
      * unfold loopCalls, started, pageCalls. rewrite flat_map_app.
        cbn. rewrite <- !app_assoc, app_nil_r. reflexivity.
      * replace pageNumber with (pageNumber - 1 + 1) at 3 by lia.
        rewrite seq_app. cbn [seq]. f_equal. f_equal. lia.
    + intros q.
      rewrite filter_app, length_app, loopCalls_requests, requests_in_range.
      reflexivity.
  - vm_compute. repeat split.
Qed.

End Handler.

(** ** The model load and the clicks *)

Section Startup.

Context {num : Type} {NUM : JSNumber num}.
Variable W : Services num.

(** The handler only appends; its calls are calls of a sweep and its
    failures are the pages'. *)
Lemma handler_effect (st : State num) :
  exists d,
    fst (onRedactFacesButtonClick W st) = after st d
    /\ Forall sweepCall (newCalls d)
    /\ (forall e,
          In e (newUnhandled d)
          \/ snd (onRedactFacesButtonClick W st) = Rejected e ->
          raises W e \/ (e = ModelNotReady /\ model st <> Loaded)).
Proof.
  rewrite handler_unfold.
  destruct (pageLoop_effect W (seq 1 (getPageCount W)) (started W st))
    as (d & Hd & Hcalls & Herr & _).
  change (model (started W st)) with (model st) in Herr.
  destruct (pageLoop W (seq 1 (getPageCount W)) (started W st))
    as [st3 r]. cbn [fst snd] in Hd, Herr. subst st3.
  set (setup := mkDelta [] [CallCreateProgress (getPageCount W);
                             CallShowProgress] [] : Delta num).
  destruct r as [[]|e0|].
  - exists (plus setup (plus d (mkDelta [] [CallHideProgress] []))).
    split; [destruct st; state_eq|].
    split.
    { cbn. repeat constructor. apply Forall_app. split; [exact Hcalls|].
      repeat constructor. }
    intros e [H|H]; [|discriminate].
    apply Herr. left. cbn in H. rewrite app_nil_r in H. exact H.
  - exists (plus setup d).
    split; [destruct st; state_eq|].
    split; [cbn; repeat constructor; exact Hcalls|].
    intros e [H|H]; apply Herr; [left|right]; exact H.
  - exists (plus setup d).
    split; [destruct st; state_eq|].
    split; [cbn; repeat constructor; exact Hcalls|].
    intros e [H|H]; apply Herr; [left|right]; exact H.
Qed.

Lemma sweepCall_not_load (c : Call num) :
  sweepCall c -> isLoadFromUri c = false.
Proof. destruct c; cbn; intros H; try reflexivity; contradiction. Qed.

(** The model load is the first call, and the only one of its kind. *)
Lemma load_requested_once (events : list Event) :
  exists rest,
    trace (app (run W events))
    = CallLoadFromUri "/models" :: CallWebViewer :: rest
    /\ Forall (fun c => isLoadFromUri c = false) rest.
Proof.
  unfold run.
  assert (Hmain : exists rest,
             trace (app (@main num))
             = CallLoadFromUri "/models" :: CallWebViewer :: rest
             /\ Forall (fun c => isLoadFromUri c = false) rest).
  { exists []. split; [reflexivity|constructor]. }
  revert Hmain. generalize (@main num) as b.
  induction events as [|ev events IH]; intros b Hb; [exact Hb|].
  cbn [fold_left]. apply IH.
  destruct Hb as (rest & Ht & Hrest).
  destruct ev; cbn [react].
  - exists rest. split; assumption.
  - destruct (buttonInstalled b); [exists rest; split; assumption|].
    exists (rest ++ [CallSetFitMode; CallSetItems]).
    split; [cbn; rewrite Ht; cbn; rewrite <- app_assoc; reflexivity|].
    apply Forall_app. split; [exact Hrest|repeat constructor].
  - destruct (buttonInstalled b); [|exists rest; split; assumption].
    destruct (handler_effect (app b)) as (d & Hd & Hcalls & _).
    destruct (onRedactFacesButtonClick W (app b)) as [st p].
    cbn [fst] in Hd. subst st. cbn [app after trace].
    exists (rest ++ newCalls d). split; [rewrite Ht; reflexivity|].
    apply Forall_app. split; [exact Hrest|].
    eapply Forall_impl; [|exact Hcalls]. apply sweepCall_not_load.
Qed.

(** Once the model is loaded it stays loaded, and a sweep adds no
    [ModelNotReady] of its own. *)
Lemma loaded_is_stable (b : Browser num) (later : list Event) :
  ~ raises W ModelNotReady ->
  model (app b) = Loaded ->
  ~ In ModelNotReady (unhandled (app b)) ->
  ~ In (Rejected ModelNotReady) (clicks b) ->
  let b' := fold_left (react W) later b in
  model (app b') = Loaded
  /\ ~ In ModelNotReady (unhandled (app b'))
  /\ ~ In (Rejected ModelNotReady) (clicks b').
Proof.
  intros Hw. revert b. induction later as [|ev later IH];
    intros b Hm Hu Hc; [cbn; auto|].
  cbn [fold_left]. apply IH; destruct ev; cbn [react].
  - cbn. rewrite Hm. reflexivity.
  - destruct (buttonInstalled b); [exact Hm|exact Hm].
  - destruct (buttonInstalled b); [|exact Hm].
    destruct (handler_effect (app b)) as (d & Hd & _).
    destruct (onRedactFacesButtonClick W (app b)) as [st p].
    cbn [fst] in Hd. subst st. exact Hm.
  - exact Hu.
  - destruct (buttonInstalled b); exact Hu.
  - destruct (buttonInstalled b); [|exact Hu].
    destruct (handler_effect (app b)) as (d & Hd & _ & Herr).
    destruct (onRedactFacesButtonClick W (app b)) as [st p].
    cbn [fst snd] in Hd, Herr. subst st. cbn [app after unhandled].
    intros H. apply in_app_or in H. destruct H as [H|H]; [exact (Hu H)|].
    destruct (Herr ModelNotReady (or_introl H)) as [Hr|[_ Hn]];
      [exact (Hw Hr)|exact (Hn Hm)].
  - exact Hc.
  - destruct (buttonInstalled b); exact Hc.
  - destruct (buttonInstalled b); [|exact Hc].
    destruct (handler_effect (app b)) as (d & Hd & _ & Herr).
    destruct (onRedactFacesButtonClick W (app b)) as [st p].
    cbn [fst snd] in Hd, Herr. cbn [clicks].
    intros H. apply in_app_or in H. destruct H as [H|[H|[]]]; [exact (Hc H)|].
    destruct (Herr ModelNotReady (or_intror H)) as [Hr|[_ Hn]];
      [exact (Hw Hr)|exact (Hn Hm)].
Qed.

(** Without a click nothing fails, and the model has been requested. *)
Lemma quiet_before_clicks (before : list Event) (b : Browser num) :
  existsb isClick before = false ->
  model (app b) <> NotRequested ->
  unhandled (app b) = [] ->
  clicks b = [] ->
  let b' := fold_left (react W) before b in
  model (app b') <> NotRequested
  /\ unhandled (app b') = []
  /\ clicks b' = [].
Proof.
  revert b. induction before as [|ev before IH];
    intros b Hno Hm Hu Hc; [cbn; auto|].
  cbn [existsb] in Hno. apply orb_false_iff in Hno. destruct Hno as [Hev Hno].
  cbn [fold_left].
  destruct ev; try discriminate; apply IH; try exact Hno; cbn [react].
  - cbn. destruct (model (app b)); congruence.
  - exact Hu.
  - exact Hc.
  - destruct (buttonInstalled b); exact Hm.
  - destruct (buttonInstalled b); exact Hu.
  - destruct (buttonInstalled b); exact Hc.
Qed.

(** C5 (amended): the model load is requested exactly once, as the first
    call of the script, before the viewer is created and so before any
    page is processed; the script does not wait for it.  When the load has
    completed before the first click, and no collaborator raises
    [ModelNotReady] of its own, the detector is never run without its
    model: no sweep leaves a [ModelNotReady], handled or not. *)
Theorem C5_model_load_requested_once :
  (forall events,
     exists rest,
       trace (app (run W events))
       = CallLoadFromUri "/models" :: CallWebViewer :: rest
       /\ Forall (fun c => isLoadFromUri c = false) rest)
  /\ (forall before later,
        existsb isClick before = false ->
        ~ raises W ModelNotReady ->
        let b := run W (before ++ ModelLoadCompletes :: later) in
        model (app b) = Loaded
        /\ ~ In ModelNotReady (unhandled (app b))
        /\ ~ In (Rejected ModelNotReady) (clicks b)).
Proof.
  split; [exact load_requested_once|].
  intros before later Hno Hw. unfold run.
  rewrite fold_left_app. cbn [fold_left].
  destruct (quiet_before_clicks before (@main num) Hno)
    as (Hm & Hu & Hc); try reflexivity; [cbn; discriminate|].
  set (b := fold_left (react W) before main) in *.
  apply loaded_is_stable; [exact Hw| | |]; cbn [react app model unhandled clicks].
  - destruct (model (app b)); [contradiction Hm| |]; reflexivity.
  - rewrite Hu. intros [].
  - rewrite Hc. intros [].
Qed.

End Startup.

(** ** Detection options and rescaling *)

Section Detection.

Context {num : Type} {NUM : JSNumber num}.
Variable W : Services num.

Lemma detect_calls_of_sweep (c : Call num) :
  sweepCall c ->
  match c with
  | CallDetectAllFaces options => options = detectionOptions
  | _ => True
  end.
Proof. destruct c; cbn; auto. Qed.

(** C9: the options of every detector call of a sweep are a minimum
    confidence of 0.40 and at most 300 results.  With a detector that
    honours the minimum confidence it is asked for, and a resizing that
    keeps confidences, the sequence handed to the annotation builder
    holds no detection whose confidence is under that minimum. *)
Theorem C9_detector_options_and_threshold :
  (minConfidence (@detectionOptions num _) = literal 2 5
   /\ maxResults (@detectionOptions num _) = num_of_Z 300)
  /\ @detectionOptions float _
     = mkOptions 0x1.999999999999ap-2%float 300%float
  /\ (forall st,
        exists calls,
          trace (fst (onRedactFacesButtonClick W st)) = trace st ++ calls
          /\ Forall (fun c =>
                       match c with
                       | CallDetectAllFaces options =>
                           options = detectionOptions
                       | _ => True
                       end) calls)
  /\ (DetectorContract W ->
      ResizeKeepsConfidence W ->
      forall displaySize pageNumber image st detections resized,
        model st = Loaded ->
        detectAllFaces W image detectionOptions = Returns detections ->
        resizeResults W detections displaySize = Returns resized ->
        onImage W displaySize pageNumber image st
        = createFaceRedactionAnnotation W pageNumber (JSArray resized)
            (after st
               (mkDelta [] [CallDetectAllFaces detectionOptions;
                            CallResizeResults detections displaySize] []))
        /\ Forall (fun d =>
                     num_leb (minConfidence detectionOptions) (confidence d)
                     = true) resized).
Proof.
  split; [split; reflexivity|].
  split; [vm_compute; reflexivity|].
  split.
  { intros st. destruct (handler_effect W st) as (d & Hd & Hcalls & _).
    exists (newCalls d). rewrite Hd. split; [reflexivity|].
    eapply Forall_impl; [|exact Hcalls]. apply detect_calls_of_sweep. }
  intros Hdet Hkeep displaySize pageNumber image st detections resized
    Hm Hfound Hres.
  split.
  - unfold onImage, bind, detect, lift.
    destruct st as [m a t u]. cbn in Hm. subst m.
    cbn [call model fst snd]. rewrite Hfound. cbn [call model fst snd].
    rewrite Hres. f_equal. state_eq.
  - apply Hdet in Hfound. apply Hkeep in Hres.
    apply (Forall_map confidence
             (fun s => num_leb (minConfidence detectionOptions) s = true)).
    rewrite Hres.
    apply (Forall_map confidence
             (fun s => num_leb (minConfidence detectionOptions) s = true)).
    exact Hfound.
Qed.

(** C3: with a resizing that honours its contract, the detections found on
    the raster of a page (rendered at zoom 0.5) reach the annotation
    builder with each of x, y, width and height divided by that zoom
    factor; the box {10, 20, 30, 40} becomes {20, 40, 60, 80}, in exact
    and in binary64 arithmetic. *)
Theorem C3_boxes_divided_by_zoom (pageNumber : nat) (st : State num)
    (canvas : Canvas W) (url : string) (image : Image W)
    (detections : list (FaceDetection num)) :
  ResizeContract W ->
  model st = Loaded ->
  loadCanvas W pageNumber ZOOM = DrawComplete canvas ->
  toDataURL W canvas = Returns url ->
  loadImage W url = Some image ->
  detectAllFaces W image detectionOptions = Returns detections ->
  let resized := map (rescaleDetection ZOOM) detections in
  let displaySize :=
    mkDimensions (dim_width (getPageInfo W pageNumber))
                 (dim_height (getPageInfo W pageNumber)) in
  detectAndRedactFacesFromPage W pageNumber st
  = match
      createFaceRedactionAnnotation W pageNumber (JSArray resized)
        (after st
           (mkDelta []
              [CallLoadCanvas pageNumber ZOOM; CallToDataURL;
               CallDetectAllFaces detectionOptions;
               CallResizeResults detections displaySize] []))
    with
    | (st3, Returns _) => (st3, Fulfilled tt)
    | (st3, Throws e) => (report e st3, Pending)
    end
  /\ map box resized
     = map (fun d =>
              mkBox (num_div (x (box d)) ZOOM) (num_div (y (box d)) ZOOM)
                    (num_div (width (box d)) ZOOM)
                    (num_div (height (box d)) ZOOM))
           detections
  /\ (@ZOOM Q _ == 1 # 2)%Q
  /\ rescaleBox (@ZOOM Q _) (mkBox 10 20 30 40)%Q = (mkBox 20 40 60 80)%Q
  /\ @ZOOM float _ = 0.5%float
  /\ rescaleBox (@ZOOM float _) (mkBox 10 20 30 40)%float
     = (mkBox 20 40 60 80)%float.
Proof.
  intros Hcontract Hm Hload Hurl Himg Hfound. cbv zeta.
  split.
  - unfold detectAndRedactFacesFromPage, convertCanvasToImage, bind, lift.
    cbv zeta. rewrite Hload.
    destruct st as [m a t u]. cbn in Hm. subst m.
    cbn [call fst snd]. rewrite Hurl, Himg.
    unfold onImage, bind, detect, lift. cbn [call model fst snd].
    rewrite Hfound. cbn [call model fst snd].
    rewrite (Hcontract pageNumber canvas url image detections
               Hload Hurl Himg Hfound).
    replace (after _ _) with
      (mkState Loaded a
         ((((t ++ [CallLoadCanvas pageNumber ZOOM]) ++ [CallToDataURL])
             ++ [CallDetectAllFaces detectionOptions])
            ++ [CallResizeResults detections
                  (mkDimensions (dim_width (getPageInfo W pageNumber))
                                (dim_height (getPageInfo W pageNumber)))])
         u) by state_eq.
    reflexivity.
  - split; [rewrite map_map; reflexivity|].
    split; [reflexivity|].
    split; [reflexivity|].
    split; vm_compute; reflexivity.
Qed.

End Detection.

(** ** Doubling and halving in binary64

    Multiplying by 2, or dividing by 0.5, shifts the exponent (or the
    mantissa of a subnormal number) and rounds nothing away; halving the
    result gives the number back unless the doubling overflowed. *)

Section Binary64.

Local Open Scope Z_scope.

Lemma iter_shr_1 (k : positive) :
  forall m,
    iter_pos shr_1 k (Build_shr_record (Zpos (Pos.iter xO m k)) false false)
    = Build_shr_record (Zpos m) false false.
Proof.
  induction k as [k IH|k IH|]; intros m; cbn [iter_pos Pos.iter].
  - cbn [shr_1 orb]. rewrite IH, IH. reflexivity.
  - rewrite IH, IH. reflexivity.
  - reflexivity.
Qed.

Lemma digits_iter_xO (k : positive) :
  forall m, digits2_pos (Pos.iter xO m k) = (digits2_pos m + k)%positive.
Proof.
  induction k as [k IH|k IH|]; intros m; cbn [Pos.iter digits2_pos].
  - rewrite IH, IH. lia.
  - rewrite IH, IH. lia.
  - lia.
Qed.

Lemma canonical_fexp (m : positive) (e : Z) :
  canonical_mantissa prec emax m e = true ->
  fexp prec emax (Zpos (digits2_pos m) + e) = e.
Proof. unfold canonical_mantissa. apply Z.eqb_eq. Qed.

Lemma round_exact (s : bool) (m : positive) (e : Z) :
  canonical_mantissa prec emax m e = true ->
  binary_round_aux prec emax s (Zpos m) e loc_Exact
  = if e <=? emax - prec then S754_finite s m e else S754_infinity s.
Proof.
  intros Hc. apply canonical_fexp in Hc.
  unfold binary_round_aux, shr_fexp. cbn [Zdigits2 shr_record_of_loc].
  rewrite Hc, Z.sub_diag. cbn [shr shr_m round_nearest_even loc_of_shr_record].
  cbn [Zdigits2 shr_record_of_loc]. rewrite Hc, Z.sub_diag. reflexivity.
Qed.

Lemma round_shifted (s : bool) (m k : positive) (e : Z) :
  canonical_mantissa prec emax m e = true ->
  binary_round_aux prec emax s (Zpos (Pos.iter xO m k)) (e - Zpos k) loc_Exact
  = if e <=? emax - prec then S754_finite s m e else S754_infinity s.
Proof.
  intros Hc. pose proof (canonical_fexp m e Hc) as Hf.
  unfold binary_round_aux, shr_fexp. cbn [Zdigits2 shr_record_of_loc].
  rewrite digits_iter_xO.
  replace (Zpos (digits2_pos m + k) + (e - Zpos k))
    with (Zpos (digits2_pos m) + e) by lia.
  rewrite Hf. replace (e - (e - Zpos k)) with (Zpos k) by lia.
  cbn [shr]. rewrite iter_shr_1.
  cbn [shr_m round_nearest_even loc_of_shr_record].
  replace (e - Zpos k + Zpos k) with e by lia.
  cbn [Zdigits2 shr_record_of_loc]. rewrite Hf, Z.sub_diag. reflexivity.
Qed.

Lemma Prim2SF_half : Prim2SF 0.5%float = SFhalf.
Proof. vm_compute. reflexivity. Qed.

Lemma bounded_cases (m : positive) (e : Z) :
  bounded prec emax m e = true ->
  e <= 971
  /\ ((Zpos (digits2_pos m) <= 52 /\ e = -1074
       /\ canonical_mantissa prec emax (m~0)%positive e = true)
      \/ (Zpos (digits2_pos m) = 53 /\ -1074 <= e
          /\ canonical_mantissa prec emax m (e + 1) = true))
  /\ canonical_mantissa prec emax m e = true.
Proof.
  unfold bounded. intros H. apply andb_true_iff in H. destruct H as [Hc Hb].
  apply Z.leb_le in Hb. change (emax - prec) with 971 in Hb.
  split; [exact Hb|]. split; [|exact Hc].
  unfold canonical_mantissa in *. apply Z.eqb_eq in Hc.
  unfold fexp, SpecFloat.emin in *. change prec with 53 in *.
  change emax with 1024 in *. cbn [digits2_pos].
  destruct (Z_le_gt_dec (Zpos (digits2_pos m)) 52) as [Hd|Hd].
  - left. split; [exact Hd|]. split; [lia|]. apply Z.eqb_eq. lia.
  - right. split; [lia|]. split; [lia|]. apply Z.eqb_eq. lia.
Qed.

Lemma times_pow52 (m : positive) :
  (m * 4503599627370496)%positive = Pos.iter xO m 52.
Proof. rewrite Pos.mul_comm. reflexivity. Qed.


Lemma mul_half_of_double (s : bool) (m : positive) (e : Z) :
  bounded prec emax m e = true ->
  (forall s', SFdouble s m e <> S754_infinity s') ->
  SF64mul (SFdouble s m e) SFhalf = S754_finite s m e.
Proof.
  intros Hb Hfin. destruct (bounded_cases m e Hb) as (He & Hcases & Hc).
  unfold SFdouble in *.
  destruct (Zpos (digits2_pos m) <=? 52) eqn:Hd.
  - unfold SF64mul, SFmul, SFhalf. rewrite xorb_false_r, times_pow52.
    change (Pos.iter xO (m~0)%positive 52) with (Pos.iter xO m 53).
    change (e + -53) with (e - 53).
    rewrite (round_shifted s m 53 e Hc).
    replace (e <=? emax - prec) with true
      by (symmetry; apply Z.leb_le; exact He).
    reflexivity.
  - destruct (e + 1 <=? 971) eqn:Hover;
      [|exfalso; exact (Hfin s eq_refl)].
    unfold SF64mul, SFmul, SFhalf. rewrite xorb_false_r, times_pow52.
    replace (e + 1 + -53) with (e - 52) by lia.
    rewrite (round_shifted s m 52 e Hc).
    replace (e <=? emax - prec) with true
      by (symmetry; apply Z.leb_le; exact He).
    reflexivity.
Qed.

Lemma div_eucl_exact (a b q : Z) :
  0 < b -> a = b * q -> Z.div_eucl a b = (q, 0).
Proof.
  intros Hb Ha.
  assert (Hq : fst (Z.div_eucl a b) = q).
  { change (a / b = q). symmetry. apply Z.div_unique_exact; lia. }
  assert (Hr : snd (Z.div_eucl a b) = 0).
  { change (a mod b = 0). rewrite Ha, Z.mul_comm. apply Z.mod_mul. lia. }
  destruct (Z.div_eucl a b) as [q' r']. cbn in Hq, Hr. subst. reflexivity.
Qed.

Lemma div_half (s : bool) (m : positive) (e : Z) :
  bounded prec emax m e = true ->
  SF64div (S754_finite s m e) SFhalf = SFdouble s m e.
Proof.
  intros Hb. destruct (bounded_cases m e Hb) as (He & Hcases & Hc).
  pose proof (canonical_fexp m e Hc) as Hf.
  unfold SF64div, SFdiv, SFhalf, SFdiv_core_binary. rewrite xorb_false_r.
  cbn [Zdigits2].
  change (Zpos (digits2_pos 4503599627370496)) with 53.
  replace (Zpos (digits2_pos m) + e - (53 + -53))
    with (Zpos (digits2_pos m) + e) by lia.
  rewrite Hf. replace (Z.min e (e - -53)) with e by lia.
  replace (e - -53 - e) with 53 by lia.
  rewrite (div_eucl_exact (Z.shiftl (Zpos m) 53) (Zpos 4503599627370496)
             (Zpos (m~0)%positive)).
  - change (new_location (Zpos 4503599627370496) 0) with loc_Exact.
    unfold SFdouble.
    destruct Hcases as [(Hd & -> & Hc2)|(Hd & Hmin & Hc1)].
    + replace (Zpos (digits2_pos m) <=? 52) with true
        by (symmetry; apply Z.leb_le; exact Hd).
      rewrite (round_exact s (m~0)%positive (-1074) Hc2). reflexivity.
    + replace (Zpos (digits2_pos m) <=? 52) with false
        by (symmetry; apply Z.leb_gt; lia).
      change (m~0)%positive with (Pos.iter xO m 1).
      replace e with (e + 1 - 1) at 1 by lia.
      rewrite (round_shifted s m 1 (e + 1) Hc1). reflexivity.
  - lia.
  - rewrite Z.shiftl_mul_pow2 by lia.
    change (2 ^ 53) with 9007199254740992. lia.
Qed.

Lemma Prim2SF_infinity : Prim2SF infinity = S754_infinity false.
Proof. vm_compute. reflexivity. Qed.

Lemma not_infinite (v : float) (s : bool) :
  is_infinity v = false -> Prim2SF v <> S754_infinity s.
Proof.
  intros H E. unfold is_infinity in H.
  rewrite eqb_spec, abs_spec, E, Prim2SF_infinity in H. discriminate H.
Qed.


Lemma divide_by_half_then_halve (v : float) :
  is_infinity (v / 0.5)%float = false -> ((v / 0.5) * 0.5)%float = v.
Proof.
  intros Hfin. apply Prim2SF_inj.
  pose proof (fun s => not_infinite _ s Hfin) as Hno.
  rewrite div_spec, Prim2SF_half in Hno.
  rewrite mul_spec, div_spec, Prim2SF_half.
  pose proof (Prim2SF_valid v) as Hv.
  destruct (Prim2SF v) as [s|s|  |s m e].
  - destruct s; reflexivity.
  - destruct s; reflexivity.
  - reflexivity.
  - cbn [SpecFloat.valid_binary] in Hv.
    rewrite (div_half s m e Hv) in *.
    apply mul_half_of_double; assumption.
Qed.

End Binary64.

(** ** The round trip of the rescaling *)

Section RoundTrip.

(** In exact arithmetic, dividing by a non-zero zoom factor and
    multiplying by it again gives the box back. *)
Lemma rescale_then_scale (zoomFactor : Q) (b : Box Q) :
  ~ (zoomFactor == 0)%Q ->
  box_eq (scaleBox zoomFactor (rescaleBox zoomFactor b)) b.
Proof.
  intros Hz. unfold box_eq, scaleBox, rescaleBox. cbn.
  repeat split; field; exact Hz.
Qed.


Lemma ZOOM_binary64 : @ZOOM float _ = 0.5%float.
Proof. vm_compute. reflexivity. Qed.


Lemma finiteBox_fields (b : Box float) :
  finiteBox b = true ->
  is_infinity (x b) = false /\ is_infinity (y b) = false
  /\ is_infinity (width b) = false /\ is_infinity (height b) = false.
Proof.
  unfold finiteBox. rewrite !andb_true_iff, !negb_true_iff. tauto.
Qed.

(** In binary64, at the script's zoom, a box divided by the zoom and
    multiplied by it again is the box, unless the division overflowed. *)
Lemma rescale_then_scale_binary64 (b : Box float) :
  finiteBox (rescaleBox ZOOM b) = true ->
  scaleBox ZOOM (rescaleBox ZOOM b) = b.
Proof.
  intros H. apply finiteBox_fields in H. revert H.
  unfold scaleBox, rescaleBox. cbn [x y width height num_mul num_div binary64_number].
  rewrite ZOOM_binary64. intros (Hx & Hy & Hw & Hh).
  rewrite !divide_by_half_then_halve by assumption.
  destruct b; reflexivity.
Qed.



(** C8 (amended): a resized box multiplied by the zoom factor is the
    original box: exactly, in exact arithmetic, for every non-zero zoom
    factor; and exactly, in binary64 arithmetic, at the script's zoom
    factor 0.5 for every box whose resized box has no infinite field, as
    for the box {10, 20, 30, 40}, resized to {20, 40, 60, 80}. *)
Theorem C8_resized_times_zoom_is_original (zoomFactor : Q) (original : Box Q) :
  ~ (zoomFactor == 0)%Q ->
  (let resized := rescaleBox zoomFactor original in
   box_eq (scaleBox zoomFactor resized) original)
  /\ (forall original64 : Box float,
        finiteBox (rescaleBox ZOOM original64) = true ->
        scaleBox ZOOM (rescaleBox ZOOM original64) = original64)
  /\ (let original64 := (mkBox 10 20 30 40)%float in
      let resized64 := rescaleBox (@ZOOM float _) original64 in
      resized64 = (mkBox 20 40 60 80)%float
      /\ scaleBox (@ZOOM float _) resized64 = original64).
Proof.
  intros Hz. split; [apply rescale_then_scale; exact Hz|].
  split; [exact rescale_then_scale_binary64|].
  split; vm_compute; reflexivity.
Qed.

End RoundTrip.

(** ** The sample collaborators honour the contracts *)

Section SampleContracts.

Context {num : Type} {NUM : JSNumber num}.
Variable pageCount : nat.
Variable render : nat -> RenderResult nat.
Variable detector : nat -> outcome (list (FaceDetection num)).
Variable accept : RedactionAnnotation num -> outcome unit.

Lemma sample_resize_contract :
  ResizeContract (sampleServices pageCount render detector accept).
Proof. intros p canvas url image detections _ _ _ _. reflexivity. Qed.

Lemma sample_resize_keeps_confidence :
  ResizeKeepsConfidence (sampleServices pageCount render detector accept).
Proof.
  intros detections displaySize resized H. cbn in H.
  injection H as <-. rewrite map_map. reflexivity.
Qed.

Lemma sample_detector_contract :
  DetectorContract (sampleServices pageCount render detector accept).
Proof.
  intros image options detections H. cbn in H.
  destruct (detector image) as [found|e]; [|discriminate].
  injection H as <-. apply Forall_forall. intros d Hd.
  apply filter_In in Hd. exact (proj2 Hd).
Qed.

End SampleContracts.

Lemma healthy_raises_nothing {num : Type} {NUM : JSNumber num} (e : Error) :
  ~ raises (@healthy num NUM) e.
Proof.
  intros [(p & z & H)|[(c & H)|[(i & o & H)|[(l & s & H)|(a & H)]]]];
    cbn in H; discriminate.
Qed.

(** ** Runs on the sample collaborators *)

(** The builder on the resized face of page 1. *)
Lemma C1_witness :
  [@face Q _ 20 40 60 80 90] <> []
  /\ exists marker,
       annotations
         (fst (createFaceRedactionAnnotation healthyQ 1
                 (JSArray [face 20 40 60 80 90]) readyQ)) = [marker]
       /\ Quads marker = [mkQuad 20 120 80 120 80 40 20 40]%Q.
Proof.
  split; [discriminate|].
  destruct (C1_one_marker_with_k_quads healthyQ 1 [face 20 40 60 80 90] readyQ)
    as (marker & _ & Hquads & _ & _ & Hrun); [discriminate|].
  exists marker. rewrite Hrun, Hquads. split; reflexivity.
Defined.

(** Page 3 of the healthy document has no face: after the resizing nothing
    is called and the store stays empty. *)
Lemma C2_witness :
  detectAllFaces healthyQ 3 detectionOptions = Returns []
  /\ onImage healthyQ (mkDimensions 612 792)%Q 3 3 readyQ
     = (mkState Loaded []
          [CallDetectAllFaces detectionOptions;
           CallResizeResults [] (mkDimensions 612 792)%Q] [],
        Returns tt).
Proof.
  split; [reflexivity|].
  exact (proj2 (C2_empty_is_noop healthyQ 3 readyQ)
           (mkDimensions 612 792)%Q 3 [] eq_refl eq_refl eq_refl).
Defined.

(** Page 1 of the healthy document: the face found at {10, 20, 30, 40} on
    the raster is committed as the quad of {20, 40, 60, 80}. *)
Lemma C3_witness :
  map Quads (annotations (fst (detectAndRedactFacesFromPage healthyQ 1 readyQ)))
  = [[mkQuad 20 120 80 120 80 40 20 40]%Q].
Proof.
  rewrite (proj1 (C3_boxes_divided_by_zoom healthyQ 1 readyQ 1 "1"%string 1
                    [face 10 20 30 40 90]
                    (sample_resize_contract _ _ _ _)
                    eq_refl eq_refl eq_refl eq_refl eq_refl)).
  reflexivity.
Defined.

(** The detector fails on page 2, or the store refuses the marker of
    page 1: the handler's promise stays pending for ever, the failure is an
    unhandled rejection, and [hideProgress] is never called. *)
Lemma C4_counterexample :
  (detectAllFaces brokenDetectorQ 2 detectionOptions = Throws DetectionFailure
   /\ snd (onRedactFacesButtonClick brokenDetectorQ readyQ) = Pending
   /\ (forall e,
         snd (onRedactFacesButtonClick brokenDetectorQ readyQ) <> Rejected e)
   /\ unhandled (fst (onRedactFacesButtonClick brokenDetectorQ readyQ))
      = [DetectionFailure]
   /\ existsb (fun c => match c with CallHideProgress => true | _ => false end)
        (trace (fst (onRedactFacesButtonClick brokenDetectorQ readyQ))) = false)
  /\ (snd (onRedactFacesButtonClick brokenStoreQ readyQ) = Pending
      /\ unhandled (fst (onRedactFacesButtonClick brokenStoreQ readyQ))
         = [SdkFailure]).
Proof.
  split.
  - split; [reflexivity|]. split; [reflexivity|].
    split; [intros e; vm_compute; discriminate|].
    split; reflexivity.
  - split; reflexivity.
Qed.

(** The three-page document whose page 2 cannot be rasterized. *)
Lemma C4_witness :
  onRedactFacesButtonClick brokenPage2Q readyQ
  = detectAndRedactFacesFromPage brokenPage2Q 2
      (notified (fst (pageLoop brokenPage2Q [1] (started brokenPage2Q readyQ))))
  /\ snd (onRedactFacesButtonClick brokenPage2Q readyQ) = Rejected RenderFailure.
Proof.
  pose proof
    (C4_failure_stops_the_sweep brokenPage2Q readyQ
       (fst (pageLoop brokenPage2Q [1] (started brokenPage2Q readyQ)))
       (fst (detectAndRedactFacesFromPage brokenPage2Q 2
               (notified (fst (pageLoop brokenPage2Q [1]
                                 (started brokenPage2Q readyQ))))))
       2 (Rejected RenderFailure)) as H.
  destruct H as (Hrun & _).
  - cbn. lia.
  - reflexivity.
  - reflexivity.
  - discriminate.
  - split; [exact Hrun|]. rewrite Hrun. reflexivity.
Defined.

(** The viewer is ready and the button is clicked while the model is still
    loading: the detector is called, and fails with [ModelNotReady]. *)
Lemma C5_counterexample :
  let b := run healthyQ [WebViewerResolves; RedactFacesClicked] in
  model (app b) = Loading
  /\ In (CallDetectAllFaces detectionOptions) (trace (app b))
  /\ unhandled (app b) = [ModelNotReady]
  /\ clicks b = [Pending].
Proof.
  cbv zeta. split; [reflexivity|]. split; [|split; reflexivity].
  vm_compute. do 9 right. left. reflexivity.
Qed.

(** The same clicks after the model has loaded. *)
Lemma C5_witness :
  let b := run healthyQ [WebViewerResolves; ModelLoadCompletes; RedactFacesClicked] in
  existsb isClick [WebViewerResolves] = false
  /\ model (app b) = Loaded
  /\ ~ In ModelNotReady (unhandled (app b))
  /\ clicks b = [Fulfilled tt].
Proof.
  cbv zeta. split; [reflexivity|].
  destruct (proj2 (C5_model_load_requested_once healthyQ)
              [WebViewerResolves] [RedactFacesClicked] eq_refl
              (healthy_raises_nothing ModelNotReady))
    as (Hm & Hu & _).
  split; [exact Hm|]. split; [exact Hu|reflexivity].
Defined.



(** The resized box of the example, divided by the zoom factor once more,
    is four times the original. *)
Lemma C8_counterexample :
  let original := (mkBox 10 20 30 40)%Q in
  let resized := rescaleBox (@ZOOM Q _) original in
  resized = (mkBox 20 40 60 80)%Q
  /\ rescaleBox (@ZOOM Q _) resized = (mkBox 40 80 120 160)%Q
  /\ ~ box_eq (rescaleBox (@ZOOM Q _) resized) original.
Proof.
  cbv zeta. split; [reflexivity|]. split; [reflexivity|].
  intros (H & _). vm_compute in H. discriminate.
Qed.

Lemma C8_witness :
  ~ (1 # 2 == 0)%Q
  /\ box_eq (scaleBox (1 # 2) (rescaleBox (1 # 2) (mkBox 10 20 30 40)))%Q
            (mkBox 10 20 30 40)%Q.
Proof.
  assert (Hz : ~ (1 # 2 == 0)%Q) by discriminate.
  split; [exact Hz|].
  exact (proj1 (C8_resized_times_zoom_is_original (1 # 2) (mkBox 10 20 30 40)%Q Hz)).
Defined.

(** Page 2 of the healthy document: the candidate of confidence 0.30 is not
    among the detections that reach the builder. *)
Lemma C9_witness :
  detectAllFaces healthyQ 2 detectionOptions
  = Returns [face 5 5 20 20 75; face 100 50 24 32 41]
  /\ Forall (fun d => Qle_bool (2 # 5) (confidence d) = true)
            (map (rescaleDetection ZOOM)
                 [@face Q _ 5 5 20 20 75; face 100 50 24 32 41]).
Proof.
  split; [reflexivity|].
  exact (proj2 (proj2 (proj2 (proj2 (C9_detector_options_and_threshold healthyQ)))
           (sample_detector_contract _ _ _ _)
           (sample_resize_keeps_confidence _ _ _ _)
           (mkDimensions 612 792)%Q 2 2 readyQ
           [face 5 5 20 20 75; face 100 50 24 32 41]
           (map (rescaleDetection ZOOM) [face 5 5 20 20 75; face 100 50 24 32 41])
           eq_refl eq_refl eq_refl)).
Defined.

(** The healthy sweep in binary64 arithmetic: the stored quads are those of
    the exact run. *)
Example healthy_sweep_binary64 :
  map Quads (annotations (fst (onRedactFacesButtonClick (@healthy float _) ready)))
  = [[mkQuad 20 120 80 120 80 40 20 40];
     [mkQuad 10 50 50 50 50 10 10 10;
      mkQuad 200 164 248 164 248 100 200 100]]%float
  /\ snd (onRedactFacesButtonClick (@healthy float _) ready) = Fulfilled tt.
Proof. split; vm_compute; reflexivity. Qed.

(** * Further properties of the script *)

(** ** The loop and the handler against their summaries *)

Section SummariesHold.

Context {num : Type} {NUM : JSNumber num}.
Variable W : Services num.

Lemma pageLoop_spec (pages : list nat) (st : State num) :
  pageLoop W pages st =
  (after st (fst (loopEffect W (model st) pages)),
   snd (loopEffect W (model st) pages)).
Proof.
  revert st. induction pages as [|p pages IH]; intros st.
  - destruct st. cbn. state_eq.
  - rewrite pageLoop_step. cbn [loopEffect]. unfold pagePromise.
    destruct (snd (pageEffect W (model st) p)) as [[]|e|].
    + rewrite IH. change (model (after (notified st) _)) with (model st).
      cbn [fst snd]. f_equal. destruct st. state_eq.
    + cbn [fst snd]. f_equal. destruct st. state_eq.
    + cbn [fst snd]. f_equal. destruct st. state_eq.
Qed.

Lemma handler_spec (st : State num) :
  onRedactFacesButtonClick W st =
  (after st (fst (handlerEffect W (model st))),
   snd (handlerEffect W (model st))).
Proof.
  rewrite handler_unfold, pageLoop_spec. unfold handlerEffect. cbv zeta.
  change (model (started W st)) with (model st).
  destruct (snd (loopEffect W (model st) (seq 1 (getPageCount W))))
    as [[]|e|]; cbn [fst snd]; f_equal; destruct st; unfold started; state_eq.
Qed.

(** What a click does depends on the state through the model only. *)
Lemma handler_frame (st : State num) :
  exists markers calls errors,
    onRedactFacesButtonClick W st =
    (mkState (model st) (annotations st ++ markers) (trace st ++ calls)
       (unhandled st ++ errors),
     snd (handlerEffect W (model st)))
    /\ markers = newAnnotations (fst (handlerEffect W (model st)))
    /\ calls = newCalls (fst (handlerEffect W (model st)))
    /\ errors = newUnhandled (fst (handlerEffect W (model st))).
Proof.
  eexists _, _, _. rewrite handler_spec. repeat split.
Qed.

End SummariesHold.

(** ** One page, looked at through its summary *)

Ltac stages_with k :=
  exists k; cbn;
  (split; [lia|]); (split; [reflexivity|]);
  (split; [split; [try lia; intros _; eexists; reflexivity
                  |try reflexivity; intros [? H]; discriminate]|]);
  (split; [try reflexivity; lia|]);
  (split; [intros H; try discriminate; lia|]);
  intros H; try reflexivity; lia.

Section PageFacts.

Context {num : Type} {NUM : JSNumber num}.
Variable W : Services num.

(** A page commits nothing, or the one marker of its resized detections,
    of which there is at least one. *)
Lemma page_markers (m : ModelState) (pageNumber : nat) :
  newAnnotations (fst (pageEffect W m pageNumber)) = []
  \/ exists d resized,
       newAnnotations (fst (pageEffect W m pageNumber))
       = [markerOf W pageNumber (d :: resized)].
Proof.
  page_cases W m pageNumber; try (left; reflexivity).
  right. eexists _, _. reflexivity.
Qed.

(** A page leaves at most one unhandled rejection, and none unless its
    promise stays pending. *)
Lemma page_unhandled (m : ModelState) (pageNumber : nat) :
  List.length (newUnhandled (fst (pageEffect W m pageNumber))) <= 1
  /\ (pagePromise W m pageNumber <> Pending ->
      newUnhandled (fst (pageEffect W m pageNumber)) = []).
Proof.
  page_cases W m pageNumber; (split; [lia|]); intros H;
    try reflexivity; exfalso; apply H; reflexivity.
Qed.

(** The markers a page redraws are the markers it commits; the markers it
    hands to the store are those, and at most one more that the store
    refused; the flag is always [false]. *)
Lemma page_redrawn (m : ModelState) (pageNumber : nat) :
  redrawn (newCalls (fst (pageEffect W m pageNumber)))
  = newAnnotations (fst (pageEffect W m pageNumber))
  /\ exists refused,
       added (newCalls (fst (pageEffect W m pageNumber)))
       = map (fun a => (a, false))
             (newAnnotations (fst (pageEffect W m pageNumber)) ++ refused)
       /\ List.length refused <= 1
       /\ (pagePromise W m pageNumber = Fulfilled tt -> refused = []).
Proof.
  page_cases W m pageNumber; (split; [reflexivity|]);
    first
      [ exists []; split; [reflexivity|]; split; [cbn; lia|reflexivity]
      | eexists [_]; split; [reflexivity|]; split; [cbn; lia|discriminate] ].
Qed.

(** The kinds of the calls of a page are a beginning of [pageStages]; all
    seven are made exactly when a marker is committed, and a page whose
    promise is fulfilled has made four or seven of them. *)
Lemma page_stages (m : ModelState) (pageNumber : nat) :
  exists k,
    1 <= k <= 7
    /\ map kindOf (pageCalls W m pageNumber) = firstn k pageStages
    /\ (k = 7 <->
        exists marker,
          newAnnotations (fst (pageEffect W m pageNumber)) = [marker])
    /\ (k < 7 -> newAnnotations (fst (pageEffect W m pageNumber)) = [])
    /\ (pagePromise W m pageNumber = Fulfilled tt -> k = 4 \/ k = 7)
    /\ (k = 7 -> pagePromise W m pageNumber = Fulfilled tt).
Proof.
  page_cases W m pageNumber;
    first [ solve [stages_with 1] | solve [stages_with 2]
          | solve [stages_with 3] | solve [stages_with 4]
          | solve [stages_with 6] | solve [stages_with 7] ].
Qed.

End PageFacts.

(** ** The loop, looked at through its summary *)

Section LoopFacts.

Context {num : Type} {NUM : JSNumber num}.
Variable W : Services num.

Lemma redrawn_app (l1 l2 : list (Call num)) :
  redrawn (l1 ++ l2) = redrawn l1 ++ redrawn l2.
Proof.
  induction l1 as [|c l1 IH]; [reflexivity|].
  destruct c; cbn; rewrite IH; reflexivity.
Qed.

Lemma added_app (l1 l2 : list (Call num)) :
  added (l1 ++ l2) = added l1 ++ added l2.
Proof.
  induction l1 as [|c l1 IH]; [reflexivity|].
  destruct c; cbn; rewrite IH; reflexivity.
Qed.

Lemma loop_fulfilled_iff (m : ModelState) (pages : list nat) :
  snd (loopEffect W m pages) = Fulfilled tt <->
  Forall (fun p => pagePromise W m p = Fulfilled tt) pages.
Proof.
  induction pages as [|p pages IH]; cbn [loopEffect].
  - split; [constructor|reflexivity].
  - unfold pagePromise in *.
    destruct (snd (pageEffect W m p)) as [[]|e|] eqn:Hp; cbn [snd].
    + rewrite IH. split; [intros H; constructor; [exact Hp|exact H]|].
      intros H. inversion H; assumption.
    + split; [discriminate|]. intros H. inversion H; subst. congruence.
    + split; [discriminate|]. intros H. inversion H; subst. congruence.
Qed.

Lemma loop_unhandled (m : ModelState) (pages : list nat) :
  List.length (newUnhandled (fst (loopEffect W m pages))) <= 1
  /\ (snd (loopEffect W m pages) <> Pending ->
      newUnhandled (fst (loopEffect W m pages)) = []).
Proof.
  induction pages as [|p pages IH]; cbn [loopEffect].
  - cbn. split; [lia|reflexivity].
  - destruct (page_unhandled W m p) as (Hlen & Hnone). unfold pagePromise in *.
    destruct (snd (pageEffect W m p)) as [[]|e|]; cbn [fst snd plus newUnhandled].
    + rewrite (Hnone ltac:(discriminate)). cbn. exact IH.
    + rewrite (Hnone ltac:(discriminate)). cbn. split; [lia|reflexivity].
    + cbn. split; [exact Hlen|]. intros H. contradiction H. reflexivity.
Qed.

Lemma loop_redrawn (m : ModelState) (pages : list nat) :
  redrawn (newCalls (fst (loopEffect W m pages)))
  = newAnnotations (fst (loopEffect W m pages))
  /\ exists refused,
       added (newCalls (fst (loopEffect W m pages)))
       = map (fun a => (a, false))
             (newAnnotations (fst (loopEffect W m pages)) ++ refused)
       /\ List.length refused <= 1
       /\ (snd (loopEffect W m pages) = Fulfilled tt -> refused = []).
Proof.
  induction pages as [|p pages IH]; cbn [loopEffect].
  - cbn. split; [reflexivity|]. exists []. cbn. repeat split. lia.
  - destruct (page_redrawn W m p) as (Hre & refused & Hadd & Hlen & Hnone).
    unfold pagePromise in *.
    destruct (snd (pageEffect W m p)) as [[]|e|];
      cbn [fst snd plus newCalls newAnnotations];
      rewrite ?redrawn_app, ?added_app;
      change (redrawn [@CallSendPageProcessing num]) with (@nil (RedactionAnnotation num));
      change (added [@CallSendPageProcessing num])
        with (@nil (RedactionAnnotation num * bool));
      cbn [List.app].
    + destruct IH as (IHre & refused' & IHadd & IHlen & IHnone).
      rewrite (Hnone eq_refl), app_nil_r in Hadd.
      split.
      * rewrite Hre, IHre. reflexivity.
      * exists refused'. rewrite Hadd, IHadd. cbn [List.app].
        rewrite <- map_app, app_assoc.
        repeat split; assumption.
    + split; [exact Hre|]. exists refused.
      split; [exact Hadd|]. split; [exact Hlen|discriminate].
    + split; [exact Hre|]. exists refused.
      split; [exact Hadd|]. split; [exact Hlen|discriminate].
Qed.

(** The markers of a loop over consecutive pages are well formed and come
    in strictly increasing page order. *)
Lemma loop_markers (m : ModelState) (n first : nat) :
  Forall (fun a =>
            Quads a <> []
            /\ Author a = Some (getCurrentUser W)
            /\ StrokeColor a = Some red)
         (newAnnotations (fst (loopEffect W m (seq first n))))
  /\ exists ps,
       map PageNumber (newAnnotations (fst (loopEffect W m (seq first n))))
       = map Some ps
       /\ StronglySorted lt ps
       /\ Forall (fun q => first <= q < first + n) ps.
Proof.
  revert first. induction n as [|n IH]; intros first; cbn [seq loopEffect].
  - cbn. split; [constructor|]. exists []. repeat split; constructor.
  - assert (Hpage :
      Forall (fun a =>
                Quads a <> []
                /\ Author a = Some (getCurrentUser W)
                /\ StrokeColor a = Some red)
             (newAnnotations (fst (pageEffect W m first)))
      /\ exists ps,
           map PageNumber (newAnnotations (fst (pageEffect W m first)))
           = map Some ps
           /\ (ps = [] \/ ps = [first])).
    { destruct (page_markers W m first) as [->|(d & resized & ->)].
      - split; [constructor|]. exists []. split; [reflexivity|left; reflexivity].
      - split.
        + constructor; [|constructor]. cbn. repeat split. discriminate.
        + exists [first]. split; [reflexivity|right; reflexivity]. }
    destruct Hpage as (Hwf & ps & Hps & Hshape).
    assert (Hsorted : StronglySorted lt ps)
      by (destruct Hshape as [->| ->]; repeat constructor).
    assert (Hrange : Forall (fun q => first <= q < first + S n) ps)
      by (destruct Hshape as [->| ->]; repeat constructor; lia).
    destruct (snd (pageEffect W m first)) as [[]|e|];
      cbn [fst snd plus newAnnotations List.app].
    + destruct (IH (S first)) as (IHwf & ps' & IHps & IHsorted & IHall).
      split; [apply Forall_app; split; assumption|].
      exists (ps ++ ps'). split; [rewrite !map_app, Hps, IHps; reflexivity|].
      split.
      * destruct Hshape as [->| ->]; [exact IHsorted|].
        cbn. constructor; [exact IHsorted|].
        eapply Forall_impl; [|exact IHall]. cbn. intros a Ha. lia.
      * apply Forall_app. split; [exact Hrange|].
        eapply Forall_impl; [|exact IHall]. cbn. intros a Ha. lia.
    + split; [exact Hwf|]. exists ps. repeat split; assumption.
    + split; [exact Hwf|]. exists ps. repeat split; assumption.
Qed.

End LoopFacts.

(** ** A click, looked at through its summary *)

Section HandlerFacts.

Context {num : Type} {NUM : JSNumber num}.
Variable W : Services num.

Lemma handlerEffect_parts (m : ModelState) :
  let loop := loopEffect W m (seq 1 (getPageCount W)) in
  newAnnotations (fst (handlerEffect W m)) = newAnnotations (fst loop)
  /\ newUnhandled (fst (handlerEffect W m)) = newUnhandled (fst loop)
  /\ newCalls (fst (handlerEffect W m))
     = [CallCreateProgress (getPageCount W); CallShowProgress]
       ++ newCalls (fst loop)
       ++ match snd loop with
          | Fulfilled _ => [CallHideProgress]
          | _ => []
          end
  /\ snd (handlerEffect W m) = snd loop.
Proof.
  cbv zeta. unfold handlerEffect. cbv zeta.
  destruct (snd (loopEffect W m (seq 1 (getPageCount W)))) as [[]|e|];
    cbn; rewrite ?app_nil_r; repeat split.
Qed.

Lemma loop_never_hides (m : ModelState) (pages : list nat) :
  ~ In CallHideProgress (newCalls (fst (loopEffect W m pages))).
Proof.
  induction pages as [|p pages IH]; cbn [loopEffect]; [intros []|].
  assert (Hp : ~ In CallHideProgress (newCalls (fst (pageEffect W m p)))).
  { destruct (pageCalls_shape W m p) as (inside & Hshape & Hin & _).
    unfold pageCalls in Hshape. rewrite Hshape.
    intros [H|H]; [discriminate|].
    rewrite Forall_forall in Hin. exact (Hin _ H). }
  destruct (snd (pageEffect W m p)) as [[]|e|];
    cbn [fst snd plus newCalls List.app];
    intros [H|H]; try discriminate;
    try (apply in_app_or in H; destruct H as [H|H]);
    try exact (Hp H); exact (IH H).
Qed.

(** X1: whatever happens during a sweep, the markers that were in the
    store stay, in place; every marker the sweep adds has at least one
    quad, the current user as author and the red stroke colour, and the
    added markers target pages of the document in strictly increasing
    order, so no page gets two markers in one sweep. *)
Theorem sweep_markers_are_well_formed (st : State num) :
  exists markers,
    annotations (fst (onRedactFacesButtonClick W st)) = annotations st ++ markers
    /\ model (fst (onRedactFacesButtonClick W st)) = model st
    /\ Forall (fun a =>
                 Quads a <> []
                 /\ Author a = Some (getCurrentUser W)
                 /\ StrokeColor a = Some red) markers
    /\ exists ps,
         map PageNumber markers = map Some ps
         /\ StronglySorted lt ps
         /\ Forall (fun q => 1 <= q <= getPageCount W) ps.
Proof.
  rewrite handler_spec. cbn [fst after annotations model].
  destruct (handlerEffect_parts (model st)) as (-> & _).
  destruct (loop_markers W (model st) (getPageCount W) 1)
    as (Hwf & ps & Hps & Hsorted & Hrange).
  eexists. split; [reflexivity|]. split; [reflexivity|].
  split; [exact Hwf|]. exists ps. split; [exact Hps|].
  split; [exact Hsorted|].
  eapply Forall_impl; [|exact Hrange]. cbn. intros q Hq. lia.
Qed.

(** X2: a sweep leaves at most one unhandled rejection behind, and none
    at all when its promise is settled (fulfilled or rejected). *)
Theorem sweep_leaves_at_most_one_unhandled_rejection (st : State num) :
  exists errors,
    unhandled (fst (onRedactFacesButtonClick W st)) = unhandled st ++ errors
    /\ List.length errors <= 1
    /\ (snd (onRedactFacesButtonClick W st) <> Pending -> errors = []).
Proof.
  rewrite handler_spec. cbn [fst snd after unhandled].
  destruct (handlerEffect_parts (model st)) as (_ & -> & _ & ->).
  destruct (loop_unhandled W (model st) (seq 1 (getPageCount W)))
    as (Hlen & Hnone).
  eexists. split; [reflexivity|]. split; assumption.
Qed.

(** X3: the markers a sweep redraws are exactly the markers it commits, in
    the same order; the markers it hands to the store, always with the
    flag [false], are those and at most one more that the store refused,
    and none was refused when the sweep completes. *)
Theorem committed_markers_are_the_redrawn_ones (st : State num) :
  exists markers calls refused,
    annotations (fst (onRedactFacesButtonClick W st)) = annotations st ++ markers
    /\ trace (fst (onRedactFacesButtonClick W st)) = trace st ++ calls
    /\ redrawn calls = markers
    /\ added calls = map (fun a => (a, false)) (markers ++ refused)
    /\ List.length refused <= 1
    /\ (snd (onRedactFacesButtonClick W st) = Fulfilled tt -> refused = []).
Proof.
  rewrite handler_spec. cbn [fst snd after annotations trace].
  destruct (handlerEffect_parts (model st)) as (-> & _ & -> & ->).
  destruct (loop_redrawn W (model st) (seq 1 (getPageCount W)))
    as (Hre & refused & Hadd & Hlen & Hnone).
  eexists _, _, refused. split; [reflexivity|]. split; [reflexivity|].
  split; [|split; [|split; assumption]].
  - rewrite !redrawn_app, Hre.
    destruct (snd (loopEffect W (model st) (seq 1 (getPageCount W))));
      cbn; apply app_nil_r.
  - rewrite !added_app, Hadd.
    destruct (snd (loopEffect W (model st) (seq 1 (getPageCount W))));
      cbn; apply app_nil_r.
Qed.

(** X4: a sweep completes exactly when every page of the document, taken
    alone from the same state, would complete; [hideProgress] is among the
    calls of the sweep exactly in that case. *)
Theorem sweep_completes_iff_every_page_does (st : State num) :
  (snd (onRedactFacesButtonClick W st) = Fulfilled tt <->
   forall p, 1 <= p <= getPageCount W ->
             snd (detectAndRedactFacesFromPage W p st) = Fulfilled tt)
  /\ exists calls,
       trace (fst (onRedactFacesButtonClick W st)) = trace st ++ calls
       /\ (In CallHideProgress calls <->
           snd (onRedactFacesButtonClick W st) = Fulfilled tt).
Proof.
  rewrite handler_spec. cbn [fst snd after trace].
  destruct (handlerEffect_parts (model st)) as (_ & _ & -> & ->).
  split.
  - rewrite loop_fulfilled_iff, Forall_forall. split.
    + intros H p Hp. rewrite page_spec. cbn [snd].
      apply (H p). apply in_seq. lia.
    + intros H p Hp. apply in_seq in Hp. specialize (H p ltac:(lia)).
      rewrite page_spec in H. exact H.
  - eexists. split; [reflexivity|].
    pose proof (loop_never_hides (model st) (seq 1 (getPageCount W))) as Hno.
    destruct (snd (loopEffect W (model st) (seq 1 (getPageCount W))))
      as [[]|e|]; split; intros H; try reflexivity; try discriminate.
    + cbn. do 2 right. apply in_or_app. right. left. reflexivity.
    + exfalso. cbn in H. destruct H as [H|[H|H]]; try discriminate.
      apply in_app_or in H. destruct H as [H|[]]. exact (Hno H).
    + exfalso. cbn in H. destruct H as [H|[H|H]]; try discriminate.
      apply in_app_or in H. destruct H as [H|[]]. exact (Hno H).
Qed.

(** X5: a sweep does not look at what the store holds.  A second click on
    a tab left alone since the first ends the way the first did, makes the
    same calls again and commits the same markers a second time. *)
Theorem second_sweep_repeats_the_first (st : State num) :
  let first := onRedactFacesButtonClickFactory W st in
  let second := onRedactFacesButtonClickFactory W (fst first) in
  snd second = snd first
  /\ exists markers calls,
       annotations (fst first) = annotations st ++ markers
       /\ annotations (fst second) = annotations st ++ markers ++ markers
       /\ trace (fst first) = trace st ++ calls
       /\ trace (fst second) = trace st ++ calls ++ calls.
Proof.
  cbv zeta. unfold onRedactFacesButtonClickFactory.
  rewrite (handler_spec W st). cbn [fst snd].
  rewrite handler_spec. cbn [fst snd after model annotations trace].
  split; [reflexivity|].
  exists (newAnnotations (fst (handlerEffect W (model st)))),
         (newCalls (fst (handlerEffect W (model st)))).
  repeat split; symmetry; apply app_assoc.
Qed.

End HandlerFacts.

(** ** One page, in the terms of the script *)

Section PageTheorems.

Context {num : Type} {NUM : JSNumber num}.
Variable W : Services num.

(** X6: the calls of a page follow one fixed order: the canvas request,
    [toDataURL], the detector, the resizing, the marker's construction,
    [addAnnotation], [redrawAnnotation].  A page makes a beginning of that
    sequence and stops; it has committed a marker exactly when it made all
    seven calls, and a page whose promise is fulfilled stopped after the
    resizing (no face) or made all seven. *)
Theorem page_calls_follow_the_stage_order (pageNumber : nat) (st : State num) :
  exists calls k,
    trace (fst (detectAndRedactFacesFromPage W pageNumber st)) = trace st ++ calls
    /\ 1 <= k <= 7
    /\ map kindOf calls = firstn k pageStages
    /\ (k = 7 <->
        exists marker,
          annotations (fst (detectAndRedactFacesFromPage W pageNumber st))
          = annotations st ++ [marker])
    /\ (k < 7 ->
        annotations (fst (detectAndRedactFacesFromPage W pageNumber st))
        = annotations st)
    /\ (snd (detectAndRedactFacesFromPage W pageNumber st) = Fulfilled tt ->
        k = 4 \/ k = 7)
    /\ (k = 7 ->
        snd (detectAndRedactFacesFromPage W pageNumber st) = Fulfilled tt).
Proof.
  rewrite page_spec. cbn [fst snd after trace annotations].
  destruct (page_stages W (model st) pageNumber)
    as (k & Hk & Hkinds & Hseven & Hless & Hdone & Hall).
  exists (pageCalls W (model st) pageNumber), k.
  split; [reflexivity|]. split; [exact Hk|]. split; [exact Hkinds|].
  split; [|split; [|split; assumption]].
  - rewrite Hseven. split; intros (marker & H); exists marker.
    + rewrite H. reflexivity.
    + apply app_inv_head in H. exact H.
  - intros H. rewrite (Hless H). apply app_nil_r.
Qed.

(** X7: a page whose promise is fulfilled has been through every stage:
    the rasterizer called back with a canvas, [toDataURL] returned, the
    image loaded, the detector and the resizing returned; and the store
    then holds what it held, followed by the one marker of the resized
    detections, which the store accepted, or by nothing when the resizing
    left no detection. *)
Theorem fulfilled_page_has_done_every_stage (pageNumber : nat) (st : State num) :
  snd (detectAndRedactFacesFromPage W pageNumber st) = Fulfilled tt ->
  exists canvas url image detections resized,
    loadCanvas W pageNumber ZOOM = DrawComplete canvas
    /\ toDataURL W canvas = Returns url
    /\ loadImage W url = Some image
    /\ detectAllFaces W image detectionOptions = Returns detections
    /\ resizeResults W detections
         (mkDimensions (dim_width (getPageInfo W pageNumber))
                       (dim_height (getPageInfo W pageNumber)))
       = Returns resized
    /\ ((resized = []
         /\ annotations (fst (detectAndRedactFacesFromPage W pageNumber st))
            = annotations st)
        \/ (resized <> []
            /\ addAnnotation W (markerOf W pageNumber resized) = Returns tt
            /\ annotations (fst (detectAndRedactFacesFromPage W pageNumber st))
               = annotations st ++ [markerOf W pageNumber resized])).
Proof.
  rewrite page_spec. cbn [fst snd after annotations].
  unfold pageEffect, imageEffect, builderEffect. cbv zeta.
  destruct (loadCanvas W pageNumber ZOOM) as [canvas|e|] eqn:Hload;
    cbn; try discriminate.
  destruct (toDataURL W canvas) as [url|e] eqn:Hurl; cbn; try discriminate.
  destruct (loadImage W url) as [image|] eqn:Himg; cbn; try discriminate.
  destruct (model st); cbn; try discriminate.
  destruct (detectAllFaces W image detectionOptions)
    as [detections|e] eqn:Hdet; cbn; try discriminate.
  destruct (resizeResults W detections _) as [resized|e] eqn:Hres;
    cbn; try discriminate.
  destruct resized as [|d resized]; cbn.
  - intros _. exists canvas, url, image, detections, [].
    repeat split; try assumption. left. split; [reflexivity|apply app_nil_r].
  - destruct (addAnnotation W _) as [[]|e] eqn:Hadd; cbn; try discriminate.
    intros _. exists canvas, url, image, detections, (d :: resized).
    repeat split; try assumption. right.
    split; [discriminate|]. split; [exact Hadd|reflexivity].
Qed.

(** X8: when the rasterizer, once asked, never calls [drawComplete], or
    the image made of the canvas never fires [onload] (the script sets no
    [onerror]), the page hangs without a sign of failure: its promise
    stays pending, no rejection is left unhandled, the store is as it was,
    and the detector has not been called. *)
Theorem page_hangs_silently (pageNumber : nat) (st : State num) :
  (loadCanvas W pageNumber ZOOM = NoCallback
   \/ exists canvas url,
        loadCanvas W pageNumber ZOOM = DrawComplete canvas
        /\ toDataURL W canvas = Returns url
        /\ loadImage W url = None) ->
  snd (detectAndRedactFacesFromPage W pageNumber st) = Pending
  /\ unhandled (fst (detectAndRedactFacesFromPage W pageNumber st))
     = unhandled st
  /\ annotations (fst (detectAndRedactFacesFromPage W pageNumber st))
     = annotations st
  /\ exists calls,
       trace (fst (detectAndRedactFacesFromPage W pageNumber st))
       = trace st ++ calls
       /\ ~ In KDetectAllFaces (map kindOf calls).
Proof.
  rewrite page_spec. cbn [fst snd after unhandled annotations trace].
  unfold pageEffect. cbv zeta.
  intros [Hload|(canvas & url & Hload & Hurl & Himg)].
  - rewrite Hload. cbn. rewrite !app_nil_r. repeat split.
    eexists. split; [reflexivity|]. cbn. intros [H|[]]. discriminate H.
  - rewrite Hload, Hurl, Himg. cbn. rewrite !app_nil_r. repeat split.
    eexists. split; [reflexivity|]. cbn. intros [H|[H|[]]]; discriminate H.
Qed.

End PageTheorems.

(** ** The tab, from the start of the script on *)

Section TabTheorems.

Context {num : Type} {NUM : JSNumber num}.
Variable W : Services num.

(** X9: whatever events reach the tab and in whatever order, the viewer is
    set up at most once (fit mode, then the header button), after the
    model load and the viewer's creation and before any call of a sweep;
    until then no click is handled, and the store and the list of unhandled
    rejections are empty. *)
Theorem nothing_is_processed_before_the_viewer_is_ready (events : list Event) :
  let b := run W events in
  exists sweeps,
    trace (app b)
    = CallLoadFromUri "/models" :: CallWebViewer
      :: (if buttonInstalled b then [CallSetFitMode; CallSetItems] else [])
      ++ sweeps
    /\ Forall sweepCall sweeps
    /\ (buttonInstalled b = false ->
        sweeps = [] /\ clicks b = []
        /\ annotations (app b) = [] /\ unhandled (app b) = []).
Proof.
  cbv zeta. unfold run.
  assert (Hmain : exists sweeps,
    trace (app (@main num))
    = CallLoadFromUri "/models" :: CallWebViewer
      :: (if buttonInstalled (@main num)
          then [CallSetFitMode; CallSetItems] else [])
      ++ sweeps
    /\ Forall sweepCall sweeps
    /\ (buttonInstalled (@main num) = false ->
        sweeps = [] /\ clicks (@main num) = []
        /\ annotations (app (@main num)) = []
        /\ unhandled (app (@main num)) = [])).
  { exists []. split; [reflexivity|]. split; [constructor|].
    intros _. repeat split. }
  revert Hmain. generalize (@main num) as b.
  induction events as [|ev events IH]; intros b Hb; [exact Hb|].
  cbn [fold_left]. apply IH. clear IH.
  destruct Hb as (sweeps & Ht & Hcalls & Hquiet).
  destruct ev; cbn [react].
  - exists sweeps. cbn [app buttonInstalled clicks trace annotations unhandled].
    split; [exact Ht|]. split; [exact Hcalls|exact Hquiet].
  - destruct (buttonInstalled b) eqn:Hinst.
    + exists sweeps. rewrite Hinst. split; [exact Ht|].
      split; [exact Hcalls|]. intros H. discriminate.
    + destruct (Hquiet eq_refl) as (-> & _).
      exists []. cbn. rewrite Ht. cbn.
      split; [reflexivity|]. split; [constructor|]. intros H. discriminate.
  - destruct (buttonInstalled b) eqn:Hinst.
    + destruct (handler_effect W (app b)) as (d & Hd & Hnew & _).
      destruct (onRedactFacesButtonClick W (app b)) as [st p].
      cbn [fst] in Hd. subst st.
      exists (sweeps ++ newCalls d).
      cbn [app buttonInstalled after trace]. rewrite Ht.
      split; [reflexivity|].
      split; [apply Forall_app; split; assumption|].
      intros H. discriminate.
    + exists sweeps. rewrite Hinst. split; [exact Ht|].
      split; [exact Hcalls|exact Hquiet].
Qed.

End TabTheorems.

(** Page 1 of the healthy document is fulfilled: every stage has
    succeeded and its marker is in the store. *)
Lemma fulfilled_page_witness :
  snd (detectAndRedactFacesFromPage healthyQ 1 readyQ) = Fulfilled tt
  /\ exists resized,
       resizeResults healthyQ [face 10 20 30 40 90] (mkDimensions 612 792)%Q
       = Returns resized
       /\ annotations (fst (detectAndRedactFacesFromPage healthyQ 1 readyQ))
          = [markerOf healthyQ 1 resized].
Proof.
  assert (Hdone : snd (detectAndRedactFacesFromPage healthyQ 1 readyQ)
                  = Fulfilled tt) by reflexivity.
  split; [exact Hdone|].
  destruct (fulfilled_page_has_done_every_stage healthyQ 1 readyQ Hdone)
    as (canvas & url & image & detections & resized
        & Hload & Hurl & Himg & Hdet & Hres & Hstore).
  injection Hload as <-. injection Hurl as <-. injection Himg as <-.
  injection Hdet as <-. exists resized. split; [exact Hres|].
  destruct Hstore as [(-> & _)|(_ & _ & Hann)]; [discriminate Hres|exact Hann].
Defined.

(** Page 2 of the document whose rasterizer never calls back there. *)
Lemma silent_hang_witness :
  loadCanvas stalledPage2Q 2 ZOOM = NoCallback
  /\ snd (detectAndRedactFacesFromPage stalledPage2Q 2 readyQ) = Pending
  /\ unhandled (fst (detectAndRedactFacesFromPage stalledPage2Q 2 readyQ)) = [].
Proof.
  assert (Hload : loadCanvas stalledPage2Q 2 ZOOM = NoCallback) by reflexivity.
  split; [exact Hload|].
  destruct (page_hangs_silently stalledPage2Q 2 readyQ (or_introl Hload))
    as (Hp & Hu & _).
  split; [exact Hp|exact Hu].
Defined.

(** ** Two more runs *)

(** The rasterizer never calls back on page 2: the sweep hangs there
    without any failure to see, with the marker of page 1 in the store. *)
Example stalled_sweep :
  snd (onRedactFacesButtonClick stalledPage2Q readyQ) = Pending
  /\ unhandled (fst (onRedactFacesButtonClick stalledPage2Q readyQ)) = []
  /\ map PageNumber (annotations (fst (onRedactFacesButtonClick stalledPage2Q readyQ)))
     = [Some 1].
Proof. repeat split. Qed.

(** A document without pages: the progress is shown and hidden at once. *)
Example empty_document_sweep :
  onRedactFacesButtonClick emptyDocumentQ readyQ
  = (mkState Loaded []
       [CallCreateProgress 0; CallShowProgress; CallHideProgress] [],
     Fulfilled tt).
Proof. reflexivity. Qed.
